(** * elrond-sdk-erdgo: header-check construction, transaction data builder
      and DNS address generation

    A shallow embedding of
    - [headerCheck/headerCheckHandler.go] (NewHeaderCheckHandler),
    - the transaction data builder (package [elrond], txDataBuilder),
    - [blockchain/addressGenerator.go] (CompatibleDNSAddress and friends),
    together with the properties the specification states about them. *)

From Stdlib Require Import ZArith NArith List String Ascii Bool Lia.
From Stdlib.Strings Require Import Byte.
Import ListNotations.
Open Scope string_scope.
Open Scope list_scope.

(** ** Go runtime vocabulary shared by the three packages *)

Module Go.

(** Go [error] values that the modelled code creates or passes along.
    [Errorf e s] is [fmt.Errorf("%w" ++ s, e)]: the wrapped error and the text
    that follows it.  [ErrExternal] stands for errors minted by collaborators
    (the proxy, the factories, the blockchain hook). *)
Inductive error : Type :=
| ErrNilLogger
| ErrNilAddress
| ErrInvalidAddress
| ErrNilValue
| ErrInvalidValue
| ErrNilProxy
| ErrNilShardCoordinator
| ErrLength
| InvalidByteError (c : ascii)
| Errorf (wrapped : error) (text : string)
| ErrExternal (msg : string).

(** A value of interface type: the nil interface, an interface holding a nil
    pointer (for which [IsInterfaceNil] answers true), or a live object. *)
Inductive Iface (T : Type) : Type :=
| NilInterface
| NilPointer
| Obj (v : T).
Arguments NilInterface {T}.
Arguments NilPointer {T}.
Arguments Obj {T} v.

(** [check.IfNil(c)]: [c == nil || c.IsInterfaceNil()]. *)
Definition IfNil {T : Type} (c : Iface T) : bool :=
  match c with
  | Obj _ => false
  | _ => true
  end.

(** Outcome of a call returning [(T, error)] whose caller looks at the value
    only when the error is nil. *)
Inductive Result (T : Type) : Type :=
| Ok (v : T)
| Err (e : error).
Arguments Ok {T} v.
Arguments Err {T} e.

Definition isOk {T : Type} (r : Result T) : bool :=
  match r with Ok _ => true | Err _ => false end.

(** The Go pair [(value, err)] a [Result] stands for: [nil] value with the
    error, or the value with a [nil] error. *)
Definition value {T : Type} (r : Result T) : option T :=
  match r with Ok v => Some v | Err _ => None end.

Definition errOf {T : Type} (r : Result T) : option error :=
  match r with Ok _ => None | Err e => Some e end.

(** [strings.Join(elems, sep)] *)
Fixpoint Join (elems : list string) (sep : string) : string :=
  match elems with
  | [] => EmptyString
  | x :: rest =>
      match rest with
      | [] => x
      | _ :: _ => (x ++ sep ++ Join rest sep)%string
      end
  end.

(** Whether the byte [r] occurs in [s], as [strings.ContainsRune] answers for
    a one-byte rune. *)
Fixpoint ContainsRune (s : string) (r : ascii) : bool :=
  match s with
  | EmptyString => false
  | String c rest => if Ascii.eqb c r then true else ContainsRune rest r
  end.

(** [[]byte(s)] and [string(b)]: a Go string is its bytes. *)
Definition bytesOfString (s : string) : list byte := list_byte_of_string s.
Definition stringOfBytes (b : list byte) : string := string_of_list_byte b.

End Go.

(** ** encoding/hex *)

Module Hex.
Import Go.

Definition hextable : string := "0123456789abcdef".

Definition hexDigit (n : N) : ascii :=
  match String.get (N.to_nat n) hextable with
  | Some c => c
  | None => "0"%char
  end.

(** [hex.EncodeToString]: two lower-case digits per byte, high nibble first. *)
Fixpoint EncodeToString (src : list byte) : string :=
  match src with
  | [] => EmptyString
  | v :: rest =>
      String (hexDigit (N.shiftr (Byte.to_N v) 4))
        (String (hexDigit (N.land (Byte.to_N v) 15)) (EncodeToString rest))
  end.

Definition between (lo hi c : ascii) : bool :=
  (N.leb (N_of_ascii lo) (N_of_ascii c) && N.leb (N_of_ascii c) (N_of_ascii hi))%bool.

(** [fromHexChar]: digits and both letter cases are accepted. *)
Definition fromHexChar (c : ascii) : option N :=
  if between "0" "9" c then Some (N_of_ascii c - N_of_ascii "0")%N
  else if between "a" "f" c then Some (N_of_ascii c - N_of_ascii "a" + 10)%N
  else if between "A" "F" c then Some (N_of_ascii c - N_of_ascii "A" + 10)%N
  else None.

Definition byteOfNibbles (a b : N) : byte :=
  match Byte.of_N (N.lor (N.shiftl a 4) b) with
  | Some x => x
  | None => x00
  end.

(** [hex.DecodeString]: the bytes decoded so far and the error, if any.  An
    invalid character is reported before a bad length. *)
Fixpoint DecodeString (s : string) : list byte * option error :=
  match s with
  | EmptyString => ([], None)
  | String p EmptyString =>
      match fromHexChar p with
      | None => ([], Some (InvalidByteError p))
      | Some _ => ([], Some ErrLength)
      end
  | String p (String q rest) =>
      match fromHexChar p with
      | None => ([], Some (InvalidByteError p))
      | Some a =>
          match fromHexChar q with
          | None => ([], Some (InvalidByteError q))
          | Some b =>
              let '(out, e) := DecodeString rest in
              (byteOfNibbles a b :: out, e)
          end
      end
  end.

End Hex.

(** ** math/big *)

Module Big.

Definition byteOfN (n : N) : byte :=
  match Byte.of_N n with
  | Some x => x
  | None => x00
  end.

Fixpoint natBytes (fuel : nat) (n : N) (acc : list byte) : list byte :=
  match fuel with
  | O => acc
  | S fuel' =>
      if N.eqb n 0 then acc
      else natBytes fuel' (N.shiftr n 8) (byteOfN (N.land n 255) :: acc)
  end.

(** The [Bytes] method of [big.Int]: the big-endian bytes of the absolute value, without
    leading zeros; the empty slice for zero. *)
Definition Bytes (x : Z) : list byte :=
  let n := Z.abs_N x in natBytes (N.size_nat n) n [].

(** The [SetBytes] method of [big.Int]: the unsigned integer a big-endian
    byte slice stands for. *)
Definition unsignedValue (buf : list byte) : N :=
  fold_left (fun acc b => (acc * 256 + Byte.to_N b)%N) buf 0%N.

Definition SetBytes (buf : list byte) : Z := Z.of_N (unsignedValue buf).

End Big.

(** ** package elrond: txDataBuilder *)

Module Builder.
Import Go.

Definition dataSeparator : string := "@".

(** [core.AddressHandler] as far as the builder uses it. *)
Record AddressHandler : Type := {
  AddressBytes : list byte;
  AddressAsBech32String : string
}.

(** [logger.Logger]: the builder only tests it for nil. *)
Record Logger : Type := { loggerName : string }.

Record txDataBuilder : Type := {
  address : string;
  function : string;
  callerAddr : string;
  args : list string;
  log : Iface Logger;
  err : option error
}.

(** [data.VmValueRequest] *)
Record VmValueRequest : Type := {
  Address : string;
  FuncName : string;
  CallerAddr : string;
  Args : list string
}.

Definition setErr (b : txDataBuilder) (e : error) : txDataBuilder :=
  {| address := address b; function := function b; callerAddr := callerAddr b;
     args := args b; log := log b; err := Some e |}.

Definition setFunction (b : txDataBuilder) (f : string) : txDataBuilder :=
  {| address := address b; function := f; callerAddr := callerAddr b;
     args := args b; log := log b; err := err b |}.

Definition setCallerAddr (b : txDataBuilder) (a : string) : txDataBuilder :=
  {| address := address b; function := function b; callerAddr := a;
     args := args b; log := log b; err := err b |}.

Definition setAddress (b : txDataBuilder) (a : string) : txDataBuilder :=
  {| address := a; function := function b; callerAddr := callerAddr b;
     args := args b; log := log b; err := err b |}.

Definition appendArg (b : txDataBuilder) (a : string) : txDataBuilder :=
  {| address := address b; function := function b; callerAddr := callerAddr b;
     args := args b ++ [a]; log := log b; err := err b |}.

Definition NewTxDataBuilder (log : Iface Logger) : txDataBuilder :=
  let builder :=
    {| address := EmptyString; function := EmptyString; callerAddr := EmptyString; args := [];
       log := log; err := None |} in
  if IfNil log then setErr builder ErrNilLogger else builder.

Definition Function (builder : txDataBuilder) (function : string) : txDataBuilder :=
  setFunction builder function.

Definition checkAddress (address : Iface AddressHandler) : option error :=
  match address with
  | Obj a =>
      if Nat.eqb (List.length (AddressBytes a)) 0
      then Some (Errorf ErrInvalidAddress " in builder.checkAddress")
      else None
  | _ => Some (Errorf ErrNilAddress " in builder.checkAddress")
  end.

(** The methods below are only reached on an address that passed
    [checkAddress]; on a nil one Go would not get that far. *)
Definition bech32Of (address : Iface AddressHandler) : string :=
  match address with Obj a => AddressAsBech32String a | _ => EmptyString end.

Definition bytesOf (address : Iface AddressHandler) : list byte :=
  match address with Obj a => AddressBytes a | _ => [] end.

Definition CallerAddress (builder : txDataBuilder) (address : Iface AddressHandler)
  : txDataBuilder :=
  match checkAddress address with
  | Some e => setErr builder e
  | None => setCallerAddr builder (bech32Of address)
  end.

Definition Address_ (builder : txDataBuilder) (address : Iface AddressHandler)
  : txDataBuilder :=
  match checkAddress address with
  | Some e => setErr builder e
  | None => setAddress builder (bech32Of address)
  end.

Definition ArgHexString (builder : txDataBuilder) (hexed : string) : txDataBuilder :=
  match snd (Hex.DecodeString hexed) with
  | Some e =>
      setErr builder (Errorf e (" in builder.ArgHexString for string " ++ hexed)%string)
  | None => appendArg builder hexed
  end.

Definition addBytes (builder : txDataBuilder) (bytes : list byte) : txDataBuilder :=
  let bytes := if Nat.eqb (List.length bytes) 0 then [x00] else bytes in
  appendArg builder (Hex.EncodeToString bytes).

Definition ArgAddress (builder : txDataBuilder) (address : Iface AddressHandler)
  : txDataBuilder :=
  match checkAddress address with
  | Some e => setErr builder e
  | None => addBytes builder (bytesOf address)
  end.

(** [value *big.Int]: [None] is the nil pointer. *)
Definition ArgBigInt (builder : txDataBuilder) (value : option Z) : txDataBuilder :=
  match value with
  | None => setErr builder (Errorf ErrNilValue " in builder.ArgBigInt")
  | Some v => addBytes builder (Big.Bytes v)
  end.

(** [value int64]: callers pass a value of that range. *)
Definition ArgInt64 (builder : txDataBuilder) (value : Z) : txDataBuilder :=
  let b := value in
  addBytes builder (Big.Bytes b).

(** The empty-slice branch records the error and falls through to the
    append, as the source does. *)
Definition ArgBytes (builder : txDataBuilder) (bytes : list byte) : txDataBuilder :=
  let builder :=
    if Nat.eqb (List.length bytes) 0
    then setErr builder (Errorf ErrInvalidValue " in builder.ArgBytes")
    else builder in
  appendArg builder (Hex.EncodeToString bytes).

Definition ToDataString (builder : txDataBuilder) : string * option error :=
  match err builder with
  | Some e => (EmptyString, Some e)
  | None =>
      let parts := [function builder] ++ args builder in
      (Join parts dataSeparator, None)
  end.

(** The byte slice is [None] for Go's nil slice. *)
Definition ToDataBytes (builder : txDataBuilder) : option (list byte) * option error :=
  let '(dataField, e) := ToDataString builder in
  match e with
  | Some e' => (None, Some e')
  | None => (Some (bytesOfString dataField), e)
  end.

Definition ToVmValueRequest (builder : txDataBuilder)
  : option VmValueRequest * option error :=
  match err builder with
  | Some e => (None, Some e)
  | None =>
      (Some {| Address := address builder; FuncName := function builder;
               CallerAddr := callerAddr builder; Args := args builder |}, None)
  end.

(** A call on the builder, so that chains of calls can be quantified over. *)
Inductive Call : Type :=
| CallFunction (function : string)
| CallCallerAddress (address : Iface AddressHandler)
| CallAddress (address : Iface AddressHandler)
| CallArgHexString (hexed : string)
| CallArgAddress (address : Iface AddressHandler)
| CallArgBigInt (value : option Z)
| CallArgInt64 (value : Z)
| CallArgBytes (bytes : list byte).

Definition run (builder : txDataBuilder) (c : Call) : txDataBuilder :=
  match c with
  | CallFunction f => Function builder f
  | CallCallerAddress a => CallerAddress builder a
  | CallAddress a => Address_ builder a
  | CallArgHexString h => ArgHexString builder h
  | CallArgAddress a => ArgAddress builder a
  | CallArgBigInt v => ArgBigInt builder v
  | CallArgInt64 v => ArgInt64 builder v
  | CallArgBytes bs => ArgBytes builder bs
  end.

Definition runAll (builder : txDataBuilder) (cs : list Call) : txDataBuilder :=
  fold_left run cs builder.

(** A call is successful when none of its own failure branches is taken. *)
Definition successful (c : Call) : bool :=
  match c with
  | CallFunction _ => true
  | CallCallerAddress a | CallAddress a | CallArgAddress a =>
      match checkAddress a with None => true | Some _ => false end
  | CallArgHexString h =>
      match snd (Hex.DecodeString h) with None => true | Some _ => false end
  | CallArgBigInt v => match v with Some _ => true | None => false end
  | CallArgInt64 _ => true
  | CallArgBytes bs => negb (Nat.eqb (List.length bs) 0)
  end.

End Builder.


(** ** package headerCheck: NewHeaderCheckHandler *)

Module HeaderCheck.
Import Go.

(** The types of the collaborators the constructor wires together.  They
    belong to elrond-go and to sibling packages; the constructor only moves
    their values around. *)
Class Library : Type := {
  HeaderT : Type;
  NetworkConfigT : Type;
  RatingsConfigT : Type;
  EnableEpochsConfigT : Type;
  HasherT : Type;
  RaterT : Type;
  MarshallerT : Type;
  MultiSigT : Type;
  SingleSigT : Type;
  KeyGenT : Type;
  NodesCoordinatorT : Type;
  HeaderSigVerifierT : Type;
  RawHeaderHandlerT : Type;
  HeaderVerifierT : Type
}.

(** The steps of a construction that leave the function: three remote reads
    and six constructor or factory calls, in source order. *)
Inductive Step : Type :=
| StepGetNetworkConfig
| StepGetRatingsConfig
| StepGetEnableEpochsConfig
| StepCreateCoreComponents
| StepCreateCryptoComponents
| StepCreateNodesCoordinator
| StepNewHeaderSigVerifier
| StepNewRawHeaderHandler
| StepNewHeaderVerifier.

Definition Step_eq_dec (a b : Step) : {a = b} + {a <> b}.
Proof. decide equality. Defined.

(** One entry of the call log: which step ran and whether it returned a nil
    error. *)
Record Event : Type := { step : Step; succeeded : bool }.

Definition Log : Type := list Event.

Definition steps (l : Log) : list Step := map step l.

Definition pipeline : list Step :=
  [StepGetNetworkConfig; StepGetRatingsConfig; StepGetEnableEpochsConfig;
   StepCreateCoreComponents; StepCreateCryptoComponents;
   StepCreateNodesCoordinator; StepNewHeaderSigVerifier;
   StepNewRawHeaderHandler; StepNewHeaderVerifier].

(** The shape every call log of a construction has: the steps are an initial
    segment of the pipeline, and only its last entry may be a failure. *)
Definition orderly (calls : Log) : Prop :=
  (exists n, steps calls = firstn n pipeline) /\
  (forall i ev, nth_error calls i = Some ev -> succeeded ev = false ->
                S i = List.length calls).

Section WithLibrary.
Context {L : Library}.

(** The remote data-source.  What it answers may depend on the calls made so
    far: a read that fails once may succeed when asked again. *)
Record Proxy : Type := {
  GetNetworkConfig : Log -> Result NetworkConfigT;
  GetRatingsConfig : Log -> Result RatingsConfigT;
  GetEnableEpochsConfig : Log -> Result EnableEpochsConfigT
}.

(** [factory.coreComponents] and [factory.cryptoComponents], the fields the
    constructor reads. *)
Record coreComponents : Type := {
  Marshaller : MarshallerT;
  Hasher : HasherT;
  Rater : RaterT
}.

Record cryptoComponents : Type := {
  KeyGen : KeyGenT;
  SingleSig : SingleSigT;
  MultiSig : MultiSigT
}.

(** [process.FallbackHeaderValidator], the interface. *)
Record FallbackHeaderValidator : Type := {
  ShouldApplyFallbackValidation : HeaderT -> bool
}.

(** [testscommon.FallBackHeaderValidatorStub] of elrond-go: a struct with one
    optional callback; without it the method answers false. *)
Record FallBackHeaderValidatorStub : Type := {
  ShouldApplyFallbackValidationCalled : option (HeaderT -> bool)
}.

Definition stubAsValidator (fhvs : FallBackHeaderValidatorStub)
  : FallbackHeaderValidator :=
  {| ShouldApplyFallbackValidation := fun headerHandler =>
       match ShouldApplyFallbackValidationCalled fhvs with
       | Some f => f headerHandler
       | None => false
       end |}.

(** [&testscommon.FallBackHeaderValidatorStub{}]: every field zero. *)
Definition zeroStub : FallBackHeaderValidatorStub :=
  {| ShouldApplyFallbackValidationCalled := None |}.

(** [headerCheck.ArgsHeaderSigVerifier] of elrond-go. *)
Record ArgsHeaderSigVerifier : Type := {
  ArgMarshalizer : MarshallerT;
  ArgHasher : HasherT;
  ArgNodesCoordinator : NodesCoordinatorT;
  ArgMultiSigVerifier : MultiSigT;
  ArgSingleSigVerifier : SingleSigT;
  ArgKeyGen : KeyGenT;
  ArgFallbackHeaderValidator : FallbackHeaderValidator
}.

Record ArgsHeaderVerifier : Type := {
  HeaderHandler : RawHeaderHandlerT;
  HeaderSigVerifier : HeaderSigVerifierT;
  NodesCoordinator : NodesCoordinatorT
}.

(** The constructors and factories the function calls; none of them is part
    of this file's source, each is a function of its arguments. *)
Class Factory : Type := {
  CreateCoreComponents : RatingsConfigT -> NetworkConfigT -> Result coreComponents;
  CreateCryptoComponents : Result cryptoComponents;
  CreateNodesCoordinator :
    HasherT -> RaterT -> NetworkConfigT -> EnableEpochsConfigT ->
    Result NodesCoordinatorT;
  NewHeaderSigVerifier : ArgsHeaderSigVerifier -> Result HeaderSigVerifierT;
  NewRawHeaderHandler : Proxy -> MarshallerT -> Result RawHeaderHandlerT;
  NewHeaderVerifier : ArgsHeaderVerifier -> Result HeaderVerifierT
}.

(** *** The construction monad: a call log threaded through fallible steps *)

Definition M (A : Type) : Type := Log -> Result A * Log.

Definition ret {A : Type} (a : A) : M A := fun l => (Ok a, l).

Definition throw {A : Type} (e : error) : M A := fun l => (Err e, l).

(** [x, err := c; if err != nil { return nil, err }; k x] *)
Definition bind {A B : Type} (c : M A) (k : A -> M B) : M B :=
  fun l =>
    match c l with
    | (Ok a, l') => k a l'
    | (Err e, l') => (Err e, l')
    end.

Definition logged (s : Step) (ok : bool) : Event :=
  {| step := s; succeeded := ok |}.

(** A remote read: the answer is the proxy's for the log so far, and the
    call is appended to the log. *)
Definition remote {A : Type} (s : Step) (f : Log -> Result A) : M A :=
  fun l => let r := f l in (r, l ++ [logged s (isOk r)]).

(** A local constructor or factory call. *)
Definition invoke {A : Type} (s : Step) (r : Result A) : M A :=
  remote s (fun _ => r).

Notation "x <- c ;; k" := (bind c (fun x => k))
  (at level 61, c at next level, right associativity).

Context {F : Factory}.

(** The struct literal handed to [headerCheck.NewHeaderSigVerifier]. *)
Definition headerSigArgs (coreComp : coreComponents) (cryptoComp : cryptoComponents)
    (nodesCoordinator : NodesCoordinatorT) : ArgsHeaderSigVerifier :=
  {| ArgMarshalizer := Marshaller coreComp;
     ArgHasher := Hasher coreComp;
     ArgNodesCoordinator := nodesCoordinator;
     ArgMultiSigVerifier := MultiSig cryptoComp;
     ArgSingleSigVerifier := SingleSig cryptoComp;
     ArgKeyGen := KeyGen cryptoComp;
     ArgFallbackHeaderValidator := stubAsValidator zeroStub |}.

Definition construct (proxy : Proxy) : M HeaderVerifierT :=
  networkConfig <- remote StepGetNetworkConfig (GetNetworkConfig proxy) ;;
  ratingsConfig <- remote StepGetRatingsConfig (GetRatingsConfig proxy) ;;
  enableEpochsConfig <- remote StepGetEnableEpochsConfig (GetEnableEpochsConfig proxy) ;;
  coreComp <- invoke StepCreateCoreComponents
                (CreateCoreComponents ratingsConfig networkConfig) ;;
  cryptoComp <- invoke StepCreateCryptoComponents CreateCryptoComponents ;;
  nodesCoordinator <- invoke StepCreateNodesCoordinator
                        (CreateNodesCoordinator (Hasher coreComp) (Rater coreComp)
                           networkConfig enableEpochsConfig) ;;
  headerSigVerifier <- invoke StepNewHeaderSigVerifier
                         (NewHeaderSigVerifier
                            (headerSigArgs coreComp cryptoComp nodesCoordinator)) ;;
  rawHeaderHandler <- invoke StepNewRawHeaderHandler
                        (NewRawHeaderHandler proxy (Marshaller coreComp)) ;;
  headerVerifier <- invoke StepNewHeaderVerifier
                      (NewHeaderVerifier
                         {| HeaderHandler := rawHeaderHandler;
                            HeaderSigVerifier := headerSigVerifier;
                            NodesCoordinator := nodesCoordinator |}) ;;
  ret headerVerifier.

(** [NewHeaderCheckHandler(proxy)]: the nil test, then the construction. *)
Definition NewHeaderCheckHandler (proxy : Iface Proxy) : M HeaderVerifierT :=
  if IfNil proxy then throw ErrNilProxy
  else
    match proxy with
    | Obj p => construct p
    | _ => throw ErrNilProxy
    end.

(** What the remote answers to the three reads of a construction started at
    log [l], each read seeing the log the earlier ones left behind. *)
Definition fetched (p : Proxy) (l : Log)
  : Result NetworkConfigT * Result RatingsConfigT * Result EnableEpochsConfigT :=
  let networkConfig := GetNetworkConfig p l in
  let l1 := l ++ [logged StepGetNetworkConfig (isOk networkConfig)] in
  let ratingsConfig := GetRatingsConfig p l1 in
  let l2 := l1 ++ [logged StepGetRatingsConfig (isOk ratingsConfig)] in
  (networkConfig, ratingsConfig, GetEnableEpochsConfig p l2).

(** The error of the first read that fails, in call order; a read behind a
    failed one is never made. *)
Definition firstFetchError (p : Proxy) (l : Log) : option error :=
  match fetched p l with
  | (Err e, _, _) => Some e
  | (Ok _, Err e, _) => Some e
  | (Ok _, Ok _, Err e) => Some e
  | (Ok _, Ok _, Ok _) => None
  end.


(** The fallback validator a construction hands to the signature verifier,
    read off the arguments of its [NewHeaderSigVerifier] call. *)
Definition fallbackOf (coreComp : coreComponents) (cryptoComp : cryptoComponents)
    (nodesCoordinator : NodesCoordinatorT) : FallbackHeaderValidator :=
  ArgFallbackHeaderValidator (headerSigArgs coreComp cryptoComp nodesCoordinator).

End WithLibrary.

End HeaderCheck.

(** ** Header signature verification, as the specification describes it *)

Module SigVerifier.

Inductive ErrorKind : Type :=
| ConfigFetchError
| InvalidConfigError
| UnknownEpochError
| InsufficientValidatorsError
| HeaderNotFoundError
| DeserializationError
| InsufficientSignaturesError
| FallbackRejectedError
| InvalidAggregatedSignatureError
| InvalidLeaderSignatureError.

Inductive VerificationResult : Type :=
| Valid
| Invalid (kind : ErrorKind).

Definition PublicKey : Type := list byte.
Definition Signature : Type := list byte.

(** Modelled from the spec: the Header of the data model (section 3); the
    verifier that reads it lives in elrond-go and is not part of the source
    files at hand. *)
Record Header : Type := {
  shardID : N;
  epoch : N;
  round : N;
  nonce : N;
  prevHash : list byte;
  randSeed : list byte;
  leaderSignature : Signature;
  aggregatedSignature : Signature;
  bitmap : list byte;
  fallbackFlag : bool
}.

(** Modelled from the spec: the ConfigSnapshot fields the verifier reads. *)
Record ConfigSnapshot : Type := {
  minSigners : nat;
  committeeSize : nat
}.

(** Modelled from the spec: CryptoPrimitives, the multi- and single-signature
    engines and the canonical signed payload of a header. *)
Record CryptoPrimitives : Type := {
  signedPayload : Header -> list byte;
  verifyAggregated : list PublicKey -> list byte -> Signature -> bool;
  verifySingle : PublicKey -> list byte -> Signature -> bool
}.

(** Modelled from the spec: the pluggable FallbackPolicy collaborator. *)
Record FallbackPolicy : Type := {
  Accept : Header -> list PublicKey -> bool
}.

Definition bitsOfByte (b : byte) : list bool :=
  map (N.testbit (Byte.to_N b)) [0; 1; 2; 3; 4; 5; 6; 7]%N.

(** Modelled from the spec: the bitmap is a compact encoding, bit [i mod 8]
    of byte [i / 8] standing for committee member [i]. *)
Definition bitsOfBitmap (bm : list byte) : list bool := flat_map bitsOfByte bm.

(** Number of bits set in a participation bitmap. *)
Definition bitCount (bm : list byte) : nat :=
  List.length (filter (fun b : bool => b) (bitsOfBitmap bm)).

Fixpoint selectSigners (committee : list PublicKey) (bits : list bool)
  : list PublicKey :=
  match committee, bits with
  | member :: committee', bit :: bits' =>
      if bit then member :: selectSigners committee' bits'
      else selectSigners committee' bits'
  | _, _ => []
  end.

(** Modelled from the spec: step (1) of section 4.4, the subset of committee
    members who allegedly signed. *)
Definition participants (committee : list PublicKey) (bm : list byte)
  : list PublicKey :=
  selectSigners committee (bitsOfBitmap bm).

(** Modelled from the spec: [Verify(header, committee, cryptoPrimitives)] of
    section 4.4, its five checks in order; the elrond-go verifier that the
    constructor instantiates is not among the source files. *)
Definition Verify (cfg : ConfigSnapshot) (policy : FallbackPolicy)
    (crypto : CryptoPrimitives) (header : Header) (committee : list PublicKey)
  : VerificationResult :=
  let signers := participants committee (bitmap header) in
  if (List.length signers <? minSigners cfg)%nat && negb (fallbackFlag header)
  then Invalid InsufficientSignaturesError
  else if fallbackFlag header && negb (Accept policy header committee)
  then Invalid FallbackRejectedError
  else if negb (verifyAggregated crypto signers (signedPayload crypto header)
                  (aggregatedSignature header))
  then Invalid InvalidAggregatedSignatureError
  else
    match committee with
    | leader :: _ =>
        if verifySingle crypto leader (signedPayload crypto header)
             (leaderSignature header)
        then Valid
        else Invalid InvalidLeaderSignatureError
    | [] => Invalid InvalidLeaderSignatureError
    end.

End SigVerifier.

(** ** package blockchain: addressGenerator *)

Module Blockchain.
Import Go.

Definition accountStartNonce : Z := 0.

Definition initialDNSAddress : list byte := repeat x01 32.

(** [elrondCore.ShardIdentiferLen] and [factory.ArwenVirtualMachine], constants
    of elrond-go. *)
Definition ShardIdentiferLen : Z := 2.
Definition ArwenVirtualMachine : list byte := [x05; x00].

(** [process.BlockChainHookHandler], the method the generator calls. *)
Record BlockChainHookHandler : Type := {
  NewAddress : list byte -> Z -> list byte -> Result (list byte)
}.

(** [hashing.Hasher] *)
Record Hasher : Type := {
  Compute : string -> list byte
}.

Record shardCoordinator : Type := { numOfShards : N }.

Record addressGenerator : Type := {
  coordinator : shardCoordinator;
  blockChainHook : BlockChainHookHandler;
  hasher : Hasher
}.

(** The address [data.NewAddressFromBytes] builds. *)
Record address : Type := { AddressBytes : list byte }.

Definition NewAddressFromBytes (bytes : list byte) : address :=
  {| AddressBytes := bytes |}.

(** A call that may return or die of a run-time panic. *)
Inductive Outcome (T : Type) : Type :=
| Returns (r : Result T)
| Panics.
Arguments Returns {T} r.
Arguments Panics {T}.

(** [s[i]] on a slice: out of range is a panic, here [None]. *)
Definition index {T : Type} (s : list T) (i : Z) : option T :=
  if (i <? 0)%Z then None else nth_error s (Z.to_nat i).

(** [NewAddressGenerator]; the hook constructor of elrond-go and the keccak
    hasher are taken as given. *)
Definition NewAddressGenerator (NewBlockChainHookImpl : Result BlockChainHookHandler)
    (NewKeccak : Hasher) (coordinator : Iface shardCoordinator)
  : Result addressGenerator :=
  match coordinator with
  | Obj c =>
      match NewBlockChainHookImpl with
      | Err e => Err e
      | Ok blockchainHook =>
          Ok {| coordinator := c; blockChainHook := blockchainHook;
                hasher := NewKeccak |}
      end
  | _ => Err ErrNilShardCoordinator
  end.

Definition CompatibleDNSAddress (ag : addressGenerator) (shardId : byte)
  : Result address :=
  let addressLen := Z.of_nat (List.length initialDNSAddress) in
  let shardInBytes := [x00; shardId] in
  let newDNSPk :=
    (stringOfBytes (firstn (Z.to_nat (addressLen - ShardIdentiferLen)) initialDNSAddress)
     ++ stringOfBytes shardInBytes)%string in
  match NewAddress (blockChainHook ag) (bytesOfString newDNSPk) accountStartNonce
          ArwenVirtualMachine with
  | Err e => Err e
  | Ok newDNSAddress => Ok (NewAddressFromBytes newDNSAddress)
  end.

Definition CompatibleDNSAddressFromUsername (ag : addressGenerator) (username : string)
  : Outcome address :=
  let hash := Compute (hasher ag) username in
  match index hash (Z.of_nat (List.length hash) - 1) with
  | None => Panics
  | Some lastByte => Returns (CompatibleDNSAddress ag lastByte)
  end.

Definition ComputeArwenScAddress (ag : addressGenerator)
    (addr : Iface Builder.AddressHandler) (nonce : Z) : Result address :=
  match addr with
  | Obj a =>
      match NewAddress (blockChainHook ag) (Builder.AddressBytes a) nonce
              ArwenVirtualMachine with
      | Err e => Err e
      | Ok scAddressBytes => Ok (NewAddressFromBytes scAddressBytes)
      end
  | _ => Err ErrNilAddress
  end.

End Blockchain.

(** ** Sample collaborators, used to exercise the definitions *)

Module Sample.
Import Go HeaderCheck.

Definition library : Library :=
  {| HeaderT := nat; NetworkConfigT := nat; RatingsConfigT := nat;
     EnableEpochsConfigT := nat; HasherT := nat; RaterT := nat;
     MarshallerT := unit; MultiSigT := unit; SingleSigT := unit;
     KeyGenT := unit; NodesCoordinatorT := list nat;
     HeaderSigVerifierT := list nat; RawHeaderHandlerT := unit;
     HeaderVerifierT := list nat * list nat |}.

(** A factory that rejects a zero-round network configuration. *)
Definition factory : @Factory library :=
  @Build_Factory library
    (fun (ratingsConfig networkConfig : nat) =>
       if Nat.eqb networkConfig 0
       then Err (ErrExternal "invalid round duration")
       else Ok (@Build_coreComponents library tt ratingsConfig networkConfig))
    (Ok (@Build_cryptoComponents library tt tt tt))
    (fun (h r n e : nat) => Ok [h; r; n; e])
    (fun a => Ok (@ArgNodesCoordinator library a))
    (fun _ _ => Ok tt)
    (fun a => Ok (@HeaderSigVerifier library a, @NodesCoordinator library a)).

(** A remote that always answers. *)
Definition healthyProxy : @Proxy library :=
  @Build_Proxy library (fun _ => Ok 6) (fun _ => Ok 50) (fun _ => Ok 1).

Definition asked (s : Step) (l : Log) : bool :=
  existsb (fun ev => if Step_eq_dec (step ev) s then true else false) l.

(** A remote whose ratings endpoint fails the first time it is asked and
    answers from the second time on. *)
Definition flakyProxy : @Proxy library :=
  @Build_Proxy library
    (fun _ => Ok 6)
    (fun l =>
       if asked StepGetRatingsConfig l then Ok 50
       else Err (ErrExternal "timeout"))
    (fun _ => Ok 1).

(** A fallback validator a caller might wish to plug in: it applies the
    fallback rule to every header. *)
Definition alwaysFallback : @FallbackHeaderValidator library :=
  @Build_FallbackHeaderValidator library (fun _ => true).

Definition logger : Builder.Logger := {| Builder.loggerName := "test" |}.

Definition alice : Builder.AddressHandler :=
  {| Builder.AddressBytes := [x01; x02];
     Builder.AddressAsBech32String := "erd1alice" |}.

(** A hasher with a 32-byte digest: the input's length in the last byte. *)
Definition lengthHasher : Blockchain.Hasher :=
  {| Blockchain.Compute := fun s =>
       repeat x00 31 ++ [Big.byteOfN (N.of_nat (String.length s) mod 256)] |}.

(** A hook that derives the new address from the creator's last two bytes. *)
Definition hook : Blockchain.BlockChainHookHandler :=
  {| Blockchain.NewAddress := fun creator _ vmType =>
       Ok (vmType ++ skipn 30 creator) |}.

Definition generator : Blockchain.addressGenerator :=
  {| Blockchain.coordinator := {| Blockchain.numOfShards := 3 |};
     Blockchain.blockChainHook := hook;
     Blockchain.hasher := lengthHasher |}.

(** The specification's example: a committee of seven, threshold five. *)
Definition committee7 : list SigVerifier.PublicKey :=
  [[x01]; [x02]; [x03]; [x04]; [x05]; [x06]; [x07]].

Definition snapshot75 : SigVerifier.ConfigSnapshot :=
  {| SigVerifier.minSigners := 5; SigVerifier.committeeSize := 7 |}.

(** Signature engines that accept everything, the most permissive case. *)
Definition lenientCrypto : SigVerifier.CryptoPrimitives :=
  {| SigVerifier.signedPayload := fun h => SigVerifier.prevHash h;
     SigVerifier.verifyAggregated := fun _ _ _ => true;
     SigVerifier.verifySingle := fun _ _ _ => true |}.

Definition rejectingPolicy : SigVerifier.FallbackPolicy :=
  {| SigVerifier.Accept := fun _ _ => false |}.

Definition headerWithBitmap (bm : list byte) : SigVerifier.Header :=
  {| SigVerifier.shardID := 0; SigVerifier.epoch := 1; SigVerifier.round := 10;
     SigVerifier.nonce := 9; SigVerifier.prevHash := [x0a];
     SigVerifier.randSeed := [x0b]; SigVerifier.leaderSignature := [x0c];
     SigVerifier.aggregatedSignature := [x0d]; SigVerifier.bitmap := bm;
     SigVerifier.fallbackFlag := false |}.





End Sample.


(** * Properties *)

(** ** The transaction data builder *)

Section BuilderFacts.
Import Go Builder.

Lemma err_setErr (b : txDataBuilder) (e : error) : err (setErr b e) = Some e.
Proof. reflexivity. Qed.

Lemma err_appendArg (b : txDataBuilder) (a : string) : err (appendArg b a) = err b.
Proof. reflexivity. Qed.

Lemma err_addBytes (b : txDataBuilder) (bs : list byte) : err (addBytes b bs) = err b.
Proof. reflexivity. Qed.

(** A successful call leaves the recorded error as it found it. *)
Lemma run_successful_keeps_err (b : txDataBuilder) (c : Call) :
  successful c = true -> err (run b c) = err b.
Proof.
  destruct c as [f | a | a | h | a | v | v | bs]; simpl; intros Hok;
    try reflexivity.
  - unfold CallerAddress. destruct (checkAddress a); [discriminate | reflexivity].
  - unfold Address_. destruct (checkAddress a); [discriminate | reflexivity].
  - unfold ArgHexString. destruct (snd (Hex.DecodeString h));
      [discriminate | reflexivity].
  - unfold ArgAddress. destruct (checkAddress a); [discriminate | reflexivity].
  - destruct v; [reflexivity | discriminate].
  - unfold ArgBytes. destruct (Nat.eqb (List.length bs) 0);
      [discriminate | reflexivity].
Qed.

(** No call ever clears an error: it keeps the old one or records its own. *)
Lemma run_never_clears (b : txDataBuilder) (c : Call) :
  err b <> None -> err (run b c) <> None.
Proof.
  intros Hb.
  destruct c as [f | a | a | h | a | v | v | bs]; simpl; try exact Hb.
  - unfold CallerAddress. destruct (checkAddress a); simpl; [discriminate | exact Hb].
  - unfold Address_. destruct (checkAddress a); simpl; [discriminate | exact Hb].
  - unfold ArgHexString. destruct (snd (Hex.DecodeString h)); simpl;
      [discriminate | exact Hb].
  - unfold ArgAddress. destruct (checkAddress a); simpl; [discriminate | exact Hb].
  - destruct v; simpl; [exact Hb | discriminate].
  - unfold ArgBytes. destruct (Nat.eqb (List.length bs) 0); simpl;
      [discriminate | exact Hb].
Qed.

Lemma runAll_successful_keeps_err (cs : list Call) :
  forall b : txDataBuilder,
    forallb successful cs = true -> err (runAll b cs) = err b.
Proof.
  unfold runAll.
  induction cs as [| c cs IH]; intros b Hall; simpl in *.
  - reflexivity.
  - apply andb_true_iff in Hall as [Hc Hcs].
    rewrite (IH (run b c) Hcs).
    now apply run_successful_keeps_err.
Qed.

Lemma runAll_never_clears (cs : list Call) :
  forall b : txDataBuilder, err b <> None -> err (runAll b cs) <> None.
Proof.
  unfold runAll.
  induction cs as [| c cs IH]; intros b Hb; simpl.
  - exact Hb.
  - apply IH. now apply run_never_clears.
Qed.

(** The three readers agree on what they do with a recorded error. *)
Lemma readers_on_error (b : txDataBuilder) (e : error) :
  err b = Some e ->
  ToDataString b = (EmptyString, Some e) /\
  ToDataBytes b = (None, Some e) /\
  ToVmValueRequest b = (None, Some e).
Proof.
  intros He. unfold ToDataBytes, ToDataString, ToVmValueRequest.
  rewrite He. repeat split.
Qed.

(** Whatever calls follow, successful or not, a builder that carries an
    error keeps carrying one, and the readers return it with no data. *)
Lemma readers_after_any_calls (b : txDataBuilder) (cs : list Call) :
  err b <> None ->
  exists e : error,
    ToDataString (runAll b cs) = (EmptyString, Some e) /\
    ToDataBytes (runAll b cs) = (None, Some e) /\
    ToVmValueRequest (runAll b cs) = (None, Some e).
Proof.
  intros Hb. pose proof (runAll_never_clears cs b Hb) as Hkept.
  destruct (err (runAll b cs)) as [e |] eqn:He; [| congruence].
  exists e. now apply readers_on_error.
Qed.

(** A later failing call replaces the recorded error: the reader reports the
    most recent failure. *)
Example later_failure_wins :
  ToDataString
    (runAll (NewTxDataBuilder (Obj Sample.logger))
       [CallArgHexString "zz"; CallArgBigInt None])
  = (EmptyString, Some (Errorf ErrNilValue " in builder.ArgBigInt")).
Proof. reflexivity. Qed.

(** The empty-bytes branch of [ArgBytes] records its error and still appends
    an (empty) argument. *)
Example ArgBytes_empty_appends :
  args (ArgBytes (NewTxDataBuilder (Obj Sample.logger)) []) = [EmptyString]
  /\ err (ArgBytes (NewTxDataBuilder (Obj Sample.logger)) [])
     = Some (Errorf ErrInvalidValue " in builder.ArgBytes").
Proof. split; reflexivity. Qed.

End BuilderFacts.

(** C8. Once a builder carries an error, every chain of successful calls that
    follows leaves it in place: [ToDataString], [ToDataBytes] and
    [ToVmValueRequest] all return that very error, with the empty string or a
    nil result. *)
Theorem builder_error_latched
    (b : Builder.txDataBuilder) (e : Go.error) (cs : list Builder.Call) :
  Builder.err b = Some e ->
  forallb Builder.successful cs = true ->
  Builder.ToDataString (Builder.runAll b cs) = (EmptyString, Some e) /\
  Builder.ToDataBytes (Builder.runAll b cs) = (None, Some e) /\
  Builder.ToVmValueRequest (Builder.runAll b cs) = (None, Some e).
Proof.
  intros He Hall. apply readers_on_error.
  rewrite runAll_successful_keeps_err by exact Hall. exact He.
Qed.

Lemma builder_error_latched_witness :
  let b := Builder.ArgHexString
             (Builder.Function (Builder.NewTxDataBuilder (Go.Obj Sample.logger)) "f")
             "0g" in
  let e := Go.Errorf (Go.InvalidByteError "g")
             " in builder.ArgHexString for string 0g" in
  let cs := [Builder.CallArgInt64 7; Builder.CallArgAddress (Go.Obj Sample.alice);
             Builder.CallArgBytes [x01]; Builder.CallArgHexString "beef"] in
  Builder.ToDataString (Builder.runAll b cs) = (EmptyString, Some e) /\
  Builder.ToDataBytes (Builder.runAll b cs) = (None, Some e) /\
  Builder.ToVmValueRequest (Builder.runAll b cs) = (None, Some e).
Proof.
  intros b e cs. apply (builder_error_latched b e cs); reflexivity.
Defined.

(** C9. Zero is normalised: [big.Int]'s byte form of 0 is empty, and both
    [ArgBigInt] and [ArgInt64] append the argument ["00"] for it; a builder
    with function [f] and the single argument [ArgInt64(0)] yields [f@00]. *)
Theorem zero_argument_is_00 :
  Big.Bytes 0 = [] /\
  (forall b : Builder.txDataBuilder,
      Builder.args (Builder.ArgInt64 b 0) = Builder.args b ++ ["00"] /\
      Builder.args (Builder.ArgBigInt b (Some 0%Z)) = Builder.args b ++ ["00"]) /\
  (forall (lg : Builder.Logger) (f : string),
      Builder.ToDataString
        (Builder.ArgInt64
           (Builder.Function (Builder.NewTxDataBuilder (Go.Obj lg)) f) 0)
      = ((f ++ "@00")%string, None)).
Proof.
  split; [reflexivity | split].
  - intros b. split; reflexivity.
  - intros lg f. reflexivity.
Qed.

(** ** The address generator *)

Section BlockchainFacts.
Import Go Blockchain.

(** Indexing a non-empty slice at [len - 1] reads its last element. *)
Lemma index_last {T : Type} (s : list T) (d : T) :
  s <> [] -> index s (Z.of_nat (List.length s) - 1) = Some (last s d).
Proof.
  intros Hne.
  destruct (exists_last Hne) as [s' [x ->]].
  rewrite last_last, length_app. simpl.
  unfold index.
  replace (Z.of_nat (List.length s' + 1) - 1)%Z with (Z.of_nat (List.length s')) by lia.
  destruct (Z.ltb_spec (Z.of_nat (List.length s')) 0) as [Hneg | _]; [lia |].
  rewrite Nat2Z.id, nth_error_app2 by lia.
  now rewrite Nat.sub_diag.
Qed.

(** On an empty digest the index expression is out of range. *)
Lemma empty_digest_panics (ag : addressGenerator) (username : string) :
  Compute (hasher ag) username = [] ->
  CompatibleDNSAddressFromUsername ag username = Panics.
Proof.
  intros Hempty. unfold CompatibleDNSAddressFromUsername. now rewrite Hempty.
Qed.

Lemma stringOfBytes_app (a b : list byte) :
  stringOfBytes (a ++ b) = (stringOfBytes a ++ stringOfBytes b)%string.
Proof.
  unfold stringOfBytes. induction a as [| x a IH]; simpl.
  - reflexivity.
  - unfold string_of_list_byte in *. simpl. now rewrite IH.
Qed.

Lemma bytesOfString_stringOfBytes (a : list byte) :
  bytesOfString (stringOfBytes a) = a.
Proof. apply list_byte_of_string_of_list_byte. Qed.

(** The public key handed to the hook: thirty bytes of 1, a zero byte and the
    shard id. *)
Lemma CompatibleDNSAddress_key (ag : addressGenerator) (shardId : byte) :
  CompatibleDNSAddress ag shardId =
  match NewAddress (blockChainHook ag) (repeat x01 30 ++ [x00; shardId])
          accountStartNonce ArwenVirtualMachine with
  | Err e => Err e
  | Ok a => Ok (NewAddressFromBytes a)
  end.
Proof.
  unfold CompatibleDNSAddress.
  rewrite <- stringOfBytes_app, bytesOfString_stringOfBytes.
  reflexivity.
Qed.

End BlockchainFacts.

(** C10. For every username whose digest is not empty (keccak's has 32 bytes),
    [CompatibleDNSAddressFromUsername] returns exactly what
    [CompatibleDNSAddress] returns on the last byte of the digest, error case
    included. *)
Theorem dns_address_from_username
    (ag : Blockchain.addressGenerator) (username : string) :
  0 < List.length (Blockchain.Compute (Blockchain.hasher ag) username) ->
  Blockchain.CompatibleDNSAddressFromUsername ag username =
  Blockchain.Returns
    (Blockchain.CompatibleDNSAddress ag
       (last (Blockchain.Compute (Blockchain.hasher ag) username) x00)).
Proof.
  intros Hlen. unfold Blockchain.CompatibleDNSAddressFromUsername.
  rewrite (index_last _ x00); [reflexivity |].
  intros Hempty. rewrite Hempty in Hlen. simpl in Hlen. lia.
Qed.

Lemma dns_address_from_username_witness :
  Blockchain.CompatibleDNSAddressFromUsername Sample.generator "abc" =
  Blockchain.Returns (Blockchain.CompatibleDNSAddress Sample.generator x03).
Proof.
  apply (dns_address_from_username Sample.generator "abc"). simpl. lia.
Defined.

(** ** Header signature verification *)

Section SigVerifierFacts.
Import SigVerifier.

(** The members picked by a bit list are no more than its set bits. *)
Lemma selectSigners_length (bits : list bool) :
  forall committee : list PublicKey,
    List.length (selectSigners committee bits)
    <= List.length (filter (fun b : bool => b) bits).
Proof.
  induction bits as [| bit bits IH]; intros committee.
  - destruct committee; simpl; lia.
  - destruct committee as [| member committee]; simpl; [lia |].
    destruct bit; simpl.
    + specialize (IH committee). lia.
    + apply IH.
Qed.

Lemma participants_le_bitCount (committee : list PublicKey) (bm : list byte) :
  List.length (participants committee bm) <= bitCount bm.
Proof. apply selectSigners_length. Qed.

End SigVerifierFacts.

(** C3. A header with fewer set bitmap bits than the minimum-signers threshold
    and no fallback flag is rejected with [InsufficientSignaturesError],
    whatever the signature engines and the fallback policy would say. *)
Theorem insufficient_signatures_rejected
    (cfg : SigVerifier.ConfigSnapshot) (policy : SigVerifier.FallbackPolicy)
    (crypto : SigVerifier.CryptoPrimitives) (header : SigVerifier.Header)
    (committee : list SigVerifier.PublicKey) :
  SigVerifier.bitCount (SigVerifier.bitmap header) < SigVerifier.minSigners cfg ->
  SigVerifier.fallbackFlag header = false ->
  SigVerifier.Verify cfg policy crypto header committee
  = SigVerifier.Invalid SigVerifier.InsufficientSignaturesError.
Proof.
  intros Hcount Hflag. unfold SigVerifier.Verify.
  pose proof (participants_le_bitCount committee (SigVerifier.bitmap header)) as Hle.
  rewrite Hflag.
  destruct (Nat.ltb_spec
              (List.length (SigVerifier.participants committee (SigVerifier.bitmap header)))
              (SigVerifier.minSigners cfg)) as [_ | Hge]; [reflexivity | lia].
Qed.

Lemma insufficient_signatures_rejected_witness :
  SigVerifier.Verify Sample.snapshot75 Sample.rejectingPolicy Sample.lenientCrypto
    (Sample.headerWithBitmap [x0f]) Sample.committee7
  = SigVerifier.Invalid SigVerifier.InsufficientSignaturesError.
Proof.
  apply (insufficient_signatures_rejected Sample.snapshot75 Sample.rejectingPolicy
           Sample.lenientCrypto (Sample.headerWithBitmap [x0f]) Sample.committee7).
  - vm_compute. lia.
  - reflexivity.
Defined.

(** ** Construction of the header verifier *)

Section HeaderCheckFacts.
Import Go HeaderCheck.
Context {L : Library} {F : Factory}.

Lemma bind_ok {A B : Type} (c : M A) (k : A -> M B) (l l' : Log) (a : A) :
  c l = (Ok a, l') -> bind c k l = k a l'.
Proof. intros Hc. unfold bind. now rewrite Hc. Qed.

Lemma bind_err {A B : Type} (c : M A) (k : A -> M B) (l l' : Log) (e : error) :
  c l = (Err e, l') -> bind c k l = (Err e, l').
Proof. intros Hc. unfold bind. now rewrite Hc. Qed.

(** A nil proxy never reaches the construction. *)
Lemma NewHeaderCheckHandler_nil (proxy : Iface Proxy) (l : Log) :
  IfNil proxy = true -> NewHeaderCheckHandler proxy l = (Err ErrNilProxy, l).
Proof.
  intros Hnil. unfold NewHeaderCheckHandler. now rewrite Hnil.
Qed.

Lemma NewHeaderCheckHandler_obj (p : Proxy) (l : Log) :
  NewHeaderCheckHandler (Obj p) l = construct p l.
Proof. reflexivity. Qed.

(** What is left of a construction once the three reads have answered. *)
Lemma construct_after_fetch (p : Proxy) (l : Log)
    (networkConfig : NetworkConfigT) (ratingsConfig : RatingsConfigT)
    (enableEpochsConfig : EnableEpochsConfigT) :
  fetched p l = (Ok networkConfig, Ok ratingsConfig, Ok enableEpochsConfig) ->
  fst (construct p l) =
  match CreateCoreComponents ratingsConfig networkConfig with
  | Err e => Err e
  | Ok coreComp =>
    match CreateCryptoComponents with
    | Err e => Err e
    | Ok cryptoComp =>
      match CreateNodesCoordinator (Hasher coreComp) (Rater coreComp)
              networkConfig enableEpochsConfig with
      | Err e => Err e
      | Ok nodesCoordinator =>
        match NewHeaderSigVerifier
                (headerSigArgs coreComp cryptoComp nodesCoordinator) with
        | Err e => Err e
        | Ok headerSigVerifier =>
          match NewRawHeaderHandler p (Marshaller coreComp) with
          | Err e => Err e
          | Ok rawHeaderHandler =>
              NewHeaderVerifier
                {| HeaderHandler := rawHeaderHandler;
                   HeaderSigVerifier := headerSigVerifier;
                   NodesCoordinator := nodesCoordinator |}
          end
        end
      end
    end
  end.
Proof.
  unfold fetched. intros Hf.
  injection Hf as Hn Hr He.
  rewrite Hn in Hr, He. simpl in Hr, He. rewrite Hr in He. simpl in He.
  unfold construct, bind, remote, invoke, ret.
  rewrite Hn. simpl. rewrite Hr. simpl. rewrite He. simpl.
  destruct (CreateCoreComponents ratingsConfig networkConfig) as [coreComp | e];
    simpl; [| reflexivity].
  destruct CreateCryptoComponents as [cryptoComp | e]; simpl; [| reflexivity].
  destruct (CreateNodesCoordinator _ _ _ _) as [nodesCoordinator | e]; simpl;
    [| reflexivity].
  destruct (NewHeaderSigVerifier _) as [headerSigVerifier | e]; simpl;
    [| reflexivity].
  destruct (NewRawHeaderHandler _ _) as [rawHeaderHandler | e]; simpl;
    [| reflexivity].
  destruct (NewHeaderVerifier _) as [headerVerifier | e]; reflexivity.
Qed.

(** A failed read is the outcome of the construction. *)
Lemma construct_fetch_error (p : Proxy) (l : Log) (e : error) :
  firstFetchError p l = Some e -> fst (construct p l) = Err e.
Proof.
  unfold firstFetchError, fetched, construct, bind, remote, invoke, ret.
  destruct (GetNetworkConfig p l) as [nc | e1]; simpl.
  - destruct (GetRatingsConfig p _) as [rc | e2]; simpl.
    + destruct (GetEnableEpochsConfig p _) as [eec | e3]; simpl.
      * discriminate.
      * now intros [= ->].
    + now intros [= ->].
  - now intros [= ->].
Qed.

(** A construction that returns a verifier had all three reads answered. *)
Lemma construct_ok_fetched (p : Proxy) (l : Log) (v : HeaderVerifierT) :
  fst (construct p l) = Ok v ->
  exists networkConfig ratingsConfig enableEpochsConfig,
    fetched p l = (Ok networkConfig, Ok ratingsConfig, Ok enableEpochsConfig).
Proof.
  intros Hv.
  destruct (firstFetchError p l) as [e |] eqn:Hfirst.
  - rewrite (construct_fetch_error p l e Hfirst) in Hv. discriminate.
  - unfold firstFetchError in Hfirst.
    destruct (fetched p l) as [[[nc | e1] [rc | e2]] [eec | e3]];
      try discriminate.
    now exists nc, rc, eec.
Qed.

End HeaderCheckFacts.

(** C5. A nil proxy, whether a nil interface or an interface around a nil
    pointer, makes [NewHeaderCheckHandler] return [ErrNilProxy] at once: the
    call log is returned untouched, so no configuration read was made. *)
Theorem nil_proxy_rejected_before_any_fetch
    {L : HeaderCheck.Library} {F : HeaderCheck.Factory}
    (proxy : Go.Iface HeaderCheck.Proxy) (l : HeaderCheck.Log) :
  Go.IfNil proxy = true ->
  HeaderCheck.NewHeaderCheckHandler proxy l = (Go.Err Go.ErrNilProxy, l) /\
  Go.value (fst (HeaderCheck.NewHeaderCheckHandler proxy l)) = None.
Proof.
  intros Hnil. rewrite (NewHeaderCheckHandler_nil proxy l Hnil). split; reflexivity.
Qed.

Lemma nil_proxy_rejected_before_any_fetch_witness :
  @HeaderCheck.NewHeaderCheckHandler Sample.library Sample.factory Go.NilPointer []
  = (Go.Err Go.ErrNilProxy, []) /\
  Go.value
    (fst (@HeaderCheck.NewHeaderCheckHandler Sample.library Sample.factory
            Go.NilPointer [])) = None.
Proof.
  apply (@nil_proxy_rejected_before_any_fetch Sample.library Sample.factory
           Go.NilPointer []).
  reflexivity.
Defined.

(** C4. When one of the three configuration reads fails, the constructor
    returns a nil verifier and that read's error; and whenever it does return
    a verifier, all three reads had answered. *)
Theorem fetch_failure_aborts_construction
    {L : HeaderCheck.Library} {F : HeaderCheck.Factory}
    (p : HeaderCheck.Proxy) (l : HeaderCheck.Log) :
  (forall e : Go.error,
      HeaderCheck.firstFetchError p l = Some e ->
      fst (HeaderCheck.NewHeaderCheckHandler (Go.Obj p) l) = Go.Err e /\
      Go.value (fst (HeaderCheck.NewHeaderCheckHandler (Go.Obj p) l)) = None /\
      Go.errOf (fst (HeaderCheck.NewHeaderCheckHandler (Go.Obj p) l)) = Some e) /\
  (forall v : HeaderCheck.HeaderVerifierT,
      fst (HeaderCheck.NewHeaderCheckHandler (Go.Obj p) l) = Go.Ok v ->
      exists networkConfig ratingsConfig enableEpochsConfig,
        HeaderCheck.fetched p l
        = (Go.Ok networkConfig, Go.Ok ratingsConfig, Go.Ok enableEpochsConfig)).
Proof.
  rewrite NewHeaderCheckHandler_obj. split.
  - intros e He. rewrite (construct_fetch_error p l e He). repeat split.
  - intros v Hv. now apply construct_ok_fetched with (v := v).
Qed.

Lemma fetch_failure_aborts_construction_witness :
  fst (@HeaderCheck.NewHeaderCheckHandler Sample.library Sample.factory
         (Go.Obj Sample.flakyProxy) [])
  = Go.Err (Go.ErrExternal "timeout").
Proof.
  apply (proj1 (@fetch_failure_aborts_construction Sample.library Sample.factory
                  Sample.flakyProxy [])).
  reflexivity.
Defined.

Section ReadsMadeFacts.
Import Go HeaderCheck.
Context {L : Library} {F : Factory}.





End ReadsMadeFacts.




Section CallLogFacts.
Import Go HeaderCheck.

Lemma firstn_pipeline_once (n : nat) (s : Step) :
  count_occ Step_eq_dec (firstn n pipeline) s <= 1.
Proof.
  do 10 (destruct n as [| n]; [destruct s; simpl; lia |]).
  destruct s; simpl; lia.
Qed.

Lemma orderly_once (calls : Log) (s : Step) :
  orderly calls -> count_occ Step_eq_dec (steps calls) s <= 1.
Proof.
  intros [[n Hn] _]. rewrite Hn. apply firstn_pipeline_once.
Qed.

End CallLogFacts.

Ltac orderly_log n :=
  split;
  [ exists n; reflexivity
  | let i := fresh "i" in
    let ev := fresh "ev" in
    let Hnth := fresh "Hnth" in
    let Hfail := fresh "Hfail" in
    intros i ev Hnth Hfail;
    do 11 (try (destruct i as [| i]; simpl in Hnth;
                [ first [ discriminate Hnth
                        | injection Hnth as <-; simpl in Hfail;
                          first [ discriminate Hfail | reflexivity ] ]
                | try discriminate Hnth ])) ].

Ltac log_tail :=
  repeat rewrite <- app_assoc; simpl; reflexivity.

(** C6. A construction never retries and stops at its first failure.  The
    calls it adds to the log are an initial segment of the nine-step pipeline
    (so each remote read and each factory step happens at most once), a failed
    call is the last call made, and the constructor then returns an error. *)
Theorem construction_never_retries
    {L : HeaderCheck.Library} {F : HeaderCheck.Factory}
    (proxy : Go.Iface HeaderCheck.Proxy) (l : HeaderCheck.Log) :
  exists calls : HeaderCheck.Log,
    snd (HeaderCheck.NewHeaderCheckHandler proxy l) = l ++ calls /\
    (exists n, HeaderCheck.steps calls = firstn n HeaderCheck.pipeline) /\
    (forall s, count_occ HeaderCheck.Step_eq_dec (HeaderCheck.steps calls) s <= 1) /\
    (forall i ev,
        nth_error calls i = Some ev -> HeaderCheck.succeeded ev = false ->
        S i = List.length calls) /\
    (Go.isOk (fst (HeaderCheck.NewHeaderCheckHandler proxy l))
     = (forallb HeaderCheck.succeeded calls && (List.length calls =? 9)%nat)%bool).
Proof.
  cut (exists calls : HeaderCheck.Log,
          snd (HeaderCheck.NewHeaderCheckHandler proxy l) = l ++ calls /\
          HeaderCheck.orderly calls /\
          Go.isOk (fst (HeaderCheck.NewHeaderCheckHandler proxy l))
          = (forallb HeaderCheck.succeeded calls && (List.length calls =? 9)%nat)%bool).
  { intros (calls & Hlog & Hord & Hok). exists calls.
    split; [exact Hlog |].
    split; [exact (proj1 Hord) |].
    split; [intros s; now apply orderly_once |].
    split; [exact (proj2 Hord) | exact Hok]. }
  destruct proxy as [| | p].
  - exists []. split; [simpl; now rewrite app_nil_r |]. split; [orderly_log 0 | reflexivity].
  - exists []. split; [simpl; now rewrite app_nil_r |]. split; [orderly_log 0 | reflexivity].
  - rewrite NewHeaderCheckHandler_obj.
    unfold HeaderCheck.construct, HeaderCheck.bind, HeaderCheck.remote,
      HeaderCheck.invoke, HeaderCheck.ret.
    destruct (HeaderCheck.GetNetworkConfig p l) as [nc | e]; simpl;
      [| eexists; split; [log_tail | split; [orderly_log 1 | reflexivity]]].
    destruct (HeaderCheck.GetRatingsConfig p _) as [rc | e]; simpl;
      [| eexists; split; [log_tail | split; [orderly_log 2 | reflexivity]]].
    destruct (HeaderCheck.GetEnableEpochsConfig p _) as [eec | e]; simpl;
      [| eexists; split; [log_tail | split; [orderly_log 3 | reflexivity]]].
    destruct (HeaderCheck.CreateCoreComponents rc nc) as [coreComp | e]; simpl;
      [| eexists; split; [log_tail | split; [orderly_log 4 | reflexivity]]].
    destruct HeaderCheck.CreateCryptoComponents as [cryptoComp | e]; simpl;
      [| eexists; split; [log_tail | split; [orderly_log 5 | reflexivity]]].
    destruct (HeaderCheck.CreateNodesCoordinator _ _ _ _) as [nodes | e]; simpl;
      [| eexists; split; [log_tail | split; [orderly_log 6 | reflexivity]]].
    destruct (HeaderCheck.NewHeaderSigVerifier _) as [sigVerifier | e]; simpl;
      [| eexists; split; [log_tail | split; [orderly_log 7 | reflexivity]]].
    destruct (HeaderCheck.NewRawHeaderHandler _ _) as [raw | e]; simpl;
      [| eexists; split; [log_tail | split; [orderly_log 8 | reflexivity]]].
    destruct (HeaderCheck.NewHeaderVerifier _) as [verifier | e]; simpl;
      eexists; (split; [log_tail | split; [orderly_log 9 | reflexivity]]).
Qed.

(** A retry of the ratings read would have succeeded, yet the constructor
    asks once and gives up. *)
Example flaky_ratings_not_retried :
  @HeaderCheck.NewHeaderCheckHandler Sample.library Sample.factory
    (Go.Obj Sample.flakyProxy) []
  = (Go.Err (Go.ErrExternal "timeout"),
     [HeaderCheck.logged HeaderCheck.StepGetNetworkConfig true;
      HeaderCheck.logged HeaderCheck.StepGetRatingsConfig false])
  /\ @HeaderCheck.GetRatingsConfig Sample.library Sample.flakyProxy
       [HeaderCheck.logged HeaderCheck.StepGetNetworkConfig true;
        HeaderCheck.logged HeaderCheck.StepGetRatingsConfig false]
     = Go.Ok 50.
Proof. split; reflexivity. Qed.

(** C1 as stated fails: the fallback validator consulted is not one a caller
    can choose.  A validator that applies the fallback rule is one no
    construction ever hands to the signature verifier, whatever the
    components are. *)
Lemma caller_fallback_validator_ignored :
  ~ (forall provided : @HeaderCheck.FallbackHeaderValidator Sample.library,
        exists coreComp cryptoComp nodesCoordinator,
          forall header,
            HeaderCheck.ShouldApplyFallbackValidation
              (@HeaderCheck.fallbackOf Sample.library coreComp cryptoComp
                 nodesCoordinator) header
            = HeaderCheck.ShouldApplyFallbackValidation provided header).
Proof.
  intros Hclaim.
  destruct (Hclaim Sample.alwaysFallback) as (coreComp & cryptoComp & nodes & Hsame).
  specialize (Hsame 0). simpl in Hsame. discriminate Hsame.
Qed.

(** C1, as the code has it. The constructor takes the proxy and nothing else:
    every verifier it returns sits on a signature verifier that was created
    with the zero-valued [FallBackHeaderValidatorStub] as its fallback
    validator, a fixed built-in one that answers false for every header,
    whatever the proxy returned. *)
Theorem fallback_validator_is_fixed_stub
    {L : HeaderCheck.Library} {F : HeaderCheck.Factory}
    (p : HeaderCheck.Proxy) (l : HeaderCheck.Log) (v : HeaderCheck.HeaderVerifierT) :
  fst (HeaderCheck.NewHeaderCheckHandler (Go.Obj p) l) = Go.Ok v ->
  exists coreComp cryptoComp nodesCoordinator headerSigVerifier rawHeaderHandler,
    HeaderCheck.NewHeaderSigVerifier
      (HeaderCheck.headerSigArgs coreComp cryptoComp nodesCoordinator)
    = Go.Ok headerSigVerifier /\
    HeaderCheck.NewHeaderVerifier
      {| HeaderCheck.HeaderHandler := rawHeaderHandler;
         HeaderCheck.HeaderSigVerifier := headerSigVerifier;
         HeaderCheck.NodesCoordinator := nodesCoordinator |}
    = Go.Ok v /\
    HeaderCheck.ArgFallbackHeaderValidator
      (HeaderCheck.headerSigArgs coreComp cryptoComp nodesCoordinator)
    = HeaderCheck.stubAsValidator HeaderCheck.zeroStub /\
    (forall header : HeaderCheck.HeaderT,
        HeaderCheck.ShouldApplyFallbackValidation
          (HeaderCheck.fallbackOf coreComp cryptoComp nodesCoordinator) header
        = false).
Proof.
  rewrite NewHeaderCheckHandler_obj. intros Hv.
  destruct (construct_ok_fetched p l v Hv) as (nc & rc & eec & Hfetched).
  rewrite (construct_after_fetch p l nc rc eec Hfetched) in Hv.
  destruct (HeaderCheck.CreateCoreComponents rc nc) as [coreComp | e];
    [| discriminate].
  destruct HeaderCheck.CreateCryptoComponents as [cryptoComp | e];
    [| discriminate].
  destruct (HeaderCheck.CreateNodesCoordinator _ _ _ _) as [nodes | e];
    [| discriminate].
  destruct (HeaderCheck.NewHeaderSigVerifier _) as [sigVerifier | e] eqn:Hsig;
    [| discriminate].
  destruct (HeaderCheck.NewRawHeaderHandler _ _) as [raw | e]; [| discriminate].
  exists coreComp, cryptoComp, nodes, sigVerifier, raw.
  split; [exact Hsig |].
  split; [exact Hv |].
  split; [reflexivity | intros header; reflexivity].
Qed.

Lemma fallback_validator_is_fixed_stub_witness :
  exists coreComp cryptoComp nodesCoordinator headerSigVerifier rawHeaderHandler,
    @HeaderCheck.NewHeaderSigVerifier Sample.library Sample.factory
      (HeaderCheck.headerSigArgs coreComp cryptoComp nodesCoordinator)
    = Go.Ok headerSigVerifier /\
    @HeaderCheck.NewHeaderVerifier Sample.library Sample.factory
      {| HeaderCheck.HeaderHandler := rawHeaderHandler;
         HeaderCheck.HeaderSigVerifier := headerSigVerifier;
         HeaderCheck.NodesCoordinator := nodesCoordinator |}
    = Go.Ok ([50; 6; 6; 1], [50; 6; 6; 1]) /\
    HeaderCheck.ArgFallbackHeaderValidator
      (HeaderCheck.headerSigArgs coreComp cryptoComp nodesCoordinator)
    = HeaderCheck.stubAsValidator HeaderCheck.zeroStub /\
    (forall header : @HeaderCheck.HeaderT Sample.library,
        HeaderCheck.ShouldApplyFallbackValidation
          (HeaderCheck.fallbackOf coreComp cryptoComp nodesCoordinator) header
        = false).
Proof.
  apply (@fallback_validator_is_fixed_stub Sample.library Sample.factory
           Sample.healthyProxy [] ([50; 6; 6; 1], [50; 6; 6; 1])).
  reflexivity.
Defined.

(** * Further properties of the modelled code *)

(** ** Hexadecimal arguments of the builder *)

Section HexFacts.
Import Go Hex.

(** One byte, written and read back. *)
Lemma nibbles_round_trip (v : byte) :
  fromHexChar (hexDigit (N.shiftr (Byte.to_N v) 4)) = Some (N.shiftr (Byte.to_N v) 4)
  /\ fromHexChar (hexDigit (N.land (Byte.to_N v) 15)) = Some (N.land (Byte.to_N v) 15)
  /\ byteOfNibbles (N.shiftr (Byte.to_N v) 4) (N.land (Byte.to_N v) 15) = v.
Proof. destruct v; vm_compute; repeat split. Qed.

Lemma DecodeString_pair (p q : ascii) (rest : string) (a b : N) :
  fromHexChar p = Some a -> fromHexChar q = Some b ->
  DecodeString (String p (String q rest))
  = (byteOfNibbles a b :: fst (DecodeString rest), snd (DecodeString rest)).
Proof.
  intros Hp Hq. cbn [DecodeString]. rewrite Hp, Hq.
  now destruct (DecodeString rest).
Qed.

(** [hex.DecodeString] undoes [hex.EncodeToString]. *)
Lemma DecodeString_EncodeToString (src : list byte) :
  DecodeString (EncodeToString src) = (src, None).
Proof.
  induction src as [| v rest IH].
  - reflexivity.
  - destruct (nibbles_round_trip v) as (Hhi & Hlo & Hbyte).
    cbn [EncodeToString].
    rewrite (DecodeString_pair _ _ _ _ _ Hhi Hlo), IH, Hbyte. reflexivity.
Qed.

Lemma length_EncodeToString (src : list byte) :
  String.length (EncodeToString src) = 2 * List.length src.
Proof.
  induction src as [| v rest IH]; cbn [EncodeToString String.length List.length].
  - reflexivity.
  - rewrite IH. lia.
Qed.

End HexFacts.

(** ** Invariants and composition of the builder's calls *)

Section BuilderInvariants.
Import Go Builder.

Lemma args_setErr (b : txDataBuilder) (e : error) : args (setErr b e) = args b.
Proof. reflexivity. Qed.

Lemma args_appendArg (b : txDataBuilder) (a : string) :
  args (appendArg b a) = args b ++ [a].
Proof. reflexivity. Qed.

(** What a single call does to the argument list: nothing, or one more
    argument at the end. *)
Lemma run_args (b : txDataBuilder) (c : Call) :
  args (run b c) = args b \/
  exists a, args (run b c) = args b ++ [a] /\
            (snd (Hex.DecodeString a) = None).
Proof.
  destruct c as [f | a | a | h | a | v | v | bs]; simpl.
  - now left.
  - left. unfold CallerAddress. now destruct (checkAddress a).
  - left. unfold Address_. now destruct (checkAddress a).
  - unfold ArgHexString. destruct (snd (Hex.DecodeString h)) eqn:Hh.
    + now left.
    + right. exists h. now split.
  - unfold ArgAddress. destruct (checkAddress a).
    + now left.
    + right. eexists. split; [reflexivity |].
      unfold addBytes. now rewrite DecodeString_EncodeToString.
  - destruct v as [v |].
    + right. eexists. split; [reflexivity |].
      now rewrite DecodeString_EncodeToString.
    + now left.
  - right. eexists. split; [reflexivity |].
    now rewrite DecodeString_EncodeToString.
  - right. exists (Hex.EncodeToString bs). split.
    + unfold ArgBytes. now destruct (Nat.eqb (List.length bs) 0).
    + now rewrite DecodeString_EncodeToString.
Qed.

(** A call that is not successful records an error. *)
Lemma run_failed_records (b : txDataBuilder) (c : Call) :
  successful c = false -> err (run b c) <> None.
Proof.
  destruct c as [f | a | a | h | a | v | v | bs]; simpl; intros Hfail;
    try discriminate.
  - unfold CallerAddress. destruct (checkAddress a); [discriminate | discriminate].
  - unfold Address_. destruct (checkAddress a); [discriminate | discriminate].
  - unfold ArgHexString. destruct (snd (Hex.DecodeString h));
      [discriminate | discriminate].
  - unfold ArgAddress. destruct (checkAddress a); [discriminate | discriminate].
  - destruct v; [discriminate | discriminate].
  - unfold ArgBytes. destruct (Nat.eqb (List.length bs) 0);
      [discriminate | discriminate].
Qed.

Lemma runAll_cons (b : txDataBuilder) (c : Call) (cs : list Call) :
  runAll b (c :: cs) = runAll (run b c) cs.
Proof. reflexivity. Qed.

Lemma runAll_app (cs1 cs2 : list Call) (b : txDataBuilder) :
  runAll b (cs1 ++ cs2) = runAll (runAll b cs1) cs2.
Proof. unfold runAll. apply fold_left_app. Qed.

Lemma runAll_keeps_hex (cs : list Call) :
  forall b : txDataBuilder,
    Forall (fun a => snd (Hex.DecodeString a) = None) (args b) ->
    Forall (fun a => snd (Hex.DecodeString a) = None) (args (runAll b cs)).
Proof.
  induction cs as [| c cs IH]; intros b Hb.
  - exact Hb.
  - rewrite runAll_cons. apply IH.
    destruct (run_args b c) as [Hsame | (a & Hadd & Ha)].
    + now rewrite Hsame.
    + rewrite Hadd. apply Forall_app. split; [exact Hb |].
      constructor; [exact Ha | constructor].
Qed.

Lemma runAll_err_none_iff (cs : list Call) :
  forall b : txDataBuilder,
    err b = None ->
    (err (runAll b cs) = None <-> forallb successful cs = true).
Proof.
  induction cs as [| c cs IH]; intros b Hb.
  - simpl. split; [reflexivity | intros _; exact Hb].
  - rewrite runAll_cons. cbn [forallb].
    destruct (successful c) eqn:Hc.
    + rewrite (IH (run b c)).
      * reflexivity.
      * rewrite run_successful_keeps_err by exact Hc. exact Hb.
    + cbn [andb]. split; [| discriminate].
      intros Hnone. exfalso.
      apply (runAll_never_clears cs (run b c)); [| exact Hnone].
      now apply run_failed_records.
Qed.

Lemma fresh_builder_args_hex (lg : Iface Logger) (cs : list Call) :
  Forall (fun a => snd (Hex.DecodeString a) = None)
    (args (runAll (NewTxDataBuilder lg) cs)).
Proof.
  apply runAll_keeps_hex.
  unfold NewTxDataBuilder. destruct (IfNil lg); constructor.
Qed.

End BuilderInvariants.

(** X1. Whatever calls are chained on a fresh builder, with or without
    failures, every argument it holds is a string [hex.DecodeString] accepts. *)
Theorem builder_args_are_hex
    (lg : Go.Iface Builder.Logger) (cs : list Builder.Call) :
  Forall (fun a => snd (Hex.DecodeString a) = None)
    (Builder.args (Builder.runAll (Builder.NewTxDataBuilder lg) cs)).
Proof. apply fresh_builder_args_hex. Qed.

(** X2. [ToDataString] on a chain of calls returns a nil error exactly when
    the logger was not nil and every call of the chain was successful; one
    failure anywhere in the chain is enough to lose the data string. *)
Theorem data_string_ok_iff
    (lg : Go.Iface Builder.Logger) (cs : list Builder.Call) :
  snd (Builder.ToDataString (Builder.runAll (Builder.NewTxDataBuilder lg) cs)) = None
  <-> (Go.IfNil lg = false /\ forallb Builder.successful cs = true).
Proof.
  assert (Hread : forall b, snd (Builder.ToDataString b) = Builder.err b).
  { intros b. unfold Builder.ToDataString. now destruct (Builder.err b). }
  rewrite Hread. unfold Builder.NewTxDataBuilder.
  destruct (Go.IfNil lg) eqn:Hnil.
  - split.
    + intros Hnone. exfalso.
      refine (runAll_never_clears cs _ _ Hnone). discriminate.
    + intros [Hfalse _]. discriminate.
  - rewrite runAll_err_none_iff by reflexivity.
    split; [intros H; now split | intros [_ H]; exact H].
Qed.

(** X3. Calls never drop or reorder arguments: after any chain of calls the
    old argument list is a prefix of the new one, and at most one argument
    was added per call. *)
Theorem args_only_grow (b : Builder.txDataBuilder) (cs : list Builder.Call) :
  exists added : list string,
    Builder.args (Builder.runAll b cs) = Builder.args b ++ added /\
    List.length added <= List.length cs.
Proof.
  revert b. induction cs as [| c cs IH]; intros b.
  - exists []. split; [simpl; now rewrite app_nil_r | simpl; lia].
  - rewrite runAll_cons.
    destruct (IH (Builder.run b c)) as (added & Hadded & Hlen).
    destruct (run_args b c) as [Hsame | (a & Hadd & _)].
    + exists added. rewrite Hadded, Hsame. split; [reflexivity | simpl; lia].
    + exists (a :: added). rewrite Hadded, Hadd, <- app_assoc.
      split; [reflexivity | simpl; lia].
Qed.

(** X4. [Function] may come anywhere in a chain: a later [Function] replaces
    an earlier one, and with every other call it commutes. *)
Theorem Function_commutes
    (b : Builder.txDataBuilder) (f : string) (c : Builder.Call) :
  Builder.run (Builder.run b (Builder.CallFunction f)) c =
  match c with
  | Builder.CallFunction g => Builder.Function b g
  | _ => Builder.run (Builder.run b c) (Builder.CallFunction f)
  end.
Proof.
  destruct c as [g | a | a | h | a | v | v | bs]; simpl.
  - reflexivity.
  - unfold Builder.CallerAddress. now destruct (Builder.checkAddress a).
  - unfold Builder.Address_. now destruct (Builder.checkAddress a).
  - unfold Builder.ArgHexString. now destruct (snd (Hex.DecodeString h)).
  - unfold Builder.ArgAddress. now destruct (Builder.checkAddress a).
  - now destruct v.
  - reflexivity.
  - unfold Builder.ArgBytes. now destruct (Nat.eqb (List.length bs) 0).
Qed.

(** X5. For a non-empty byte slice, passing its hex form to [ArgHexString]
    is the same as passing the slice to [ArgBytes]. *)
Theorem ArgHexString_of_encoded
    (b : Builder.txDataBuilder) (bs : list byte) :
  0 < List.length bs ->
  Builder.ArgHexString b (Hex.EncodeToString bs) = Builder.ArgBytes b bs.
Proof.
  intros Hlen. unfold Builder.ArgHexString, Builder.ArgBytes.
  rewrite DecodeString_EncodeToString. simpl.
  destruct (Nat.eqb_spec (List.length bs) 0) as [Hzero | _]; [lia | reflexivity].
Qed.

Lemma ArgHexString_of_encoded_witness :
  Builder.ArgHexString (Builder.NewTxDataBuilder (Go.Obj Sample.logger))
    (Hex.EncodeToString [xde; xad])
  = Builder.ArgBytes (Builder.NewTxDataBuilder (Go.Obj Sample.logger)) [xde; xad].
Proof.
  apply (ArgHexString_of_encoded
           (Builder.NewTxDataBuilder (Go.Obj Sample.logger)) [xde; xad]).
  simpl. lia.
Defined.

(** ** Integer arguments *)

Section BigFacts.
Import Big.
Local Open Scope N_scope.

Lemma fold_value_from (buf : list byte) :
  forall start : N,
    fold_left (fun acc b => acc * 256 + Byte.to_N b) buf start
    = start * 256 ^ N.of_nat (List.length buf) + unsignedValue buf.
Proof.
  unfold unsignedValue.
  induction buf as [| b buf IH]; intros start.
  - simpl. lia.
  - cbn [fold_left List.length]. rewrite IH, (IH (0 * 256 + Byte.to_N b)).
    rewrite Nat2N.inj_succ, N.pow_succ_r'. lia.
Qed.

Lemma unsignedValue_cons (b : byte) (buf : list byte) :
  unsignedValue (b :: buf)
  = Byte.to_N b * 256 ^ N.of_nat (List.length buf) + unsignedValue buf.
Proof.
  unfold unsignedValue at 1. cbn [fold_left]. rewrite fold_value_from. lia.
Qed.

Lemma to_N_byteOfN (n : N) : n < 256 -> Byte.to_N (byteOfN n) = n.
Proof.
  intros Hn. unfold byteOfN.
  destruct (Byte.of_N n) as [x |] eqn:Hx.
  - now apply Byte.to_of_N.
  - apply Byte.of_N_None_iff in Hx. lia.
Qed.

Lemma size_nat_bound (n : N) : n < 2 ^ N.of_nat (N.size_nat n).
Proof.
  destruct n as [| p]; [reflexivity |].
  cbn [N.size_nat].
  induction p as [p IH | p IH |]; cbn [Pos.size_nat].
  - rewrite Nat2N.inj_succ, N.pow_succ_r'. lia.
  - rewrite Nat2N.inj_succ, N.pow_succ_r'. lia.
  - reflexivity.
Qed.

Lemma natBytes_value (fuel : nat) :
  forall (n : N) (acc : list byte),
    n < 2 ^ N.of_nat fuel ->
    unsignedValue (natBytes fuel n acc)
    = n * 256 ^ N.of_nat (List.length acc) + unsignedValue acc.
Proof.
  induction fuel as [| fuel IH]; intros n acc Hn.
  - simpl in Hn. assert (n = 0) as -> by lia. simpl. lia.
  - cbn [natBytes]. destruct (N.eqb_spec n 0) as [-> | Hpos]; [lia |].
    rewrite IH.
    + rewrite unsignedValue_cons. cbn [List.length].
      rewrite Nat2N.inj_succ, N.pow_succ_r'.
      change 255 with (N.ones 8). rewrite N.land_ones, N.shiftr_div_pow2.
      change (2 ^ 8) with 256.
      rewrite to_N_byteOfN by (apply N.mod_lt; lia).
      pose proof (N.div_mod n 256 ltac:(lia)) as Hdiv.
      nia.
    + rewrite N.shiftr_div_pow2. change (2 ^ 8) with 256.
      rewrite Nat2N.inj_succ, N.pow_succ_r' in Hn.
      apply N.Div0.div_lt_upper_bound.
      pose proof (N.pow_nonzero 2 (N.of_nat fuel) ltac:(lia)). lia.
Qed.

(** [SetBytes] reads back the magnitude [Bytes] wrote. *)
Lemma SetBytes_Bytes (x : Z) : SetBytes (Bytes x) = Z.abs x.
Proof.
  unfold SetBytes, Bytes.
  rewrite natBytes_value by apply size_nat_bound.
  unfold unsignedValue. cbn [List.length fold_left N.of_nat].
  rewrite N.pow_0_r, N.mul_1_r, N.add_0_r. apply N2Z.inj_abs_N.
Qed.

Lemma Bytes_opp (x : Z) : Bytes (- x) = Bytes x.
Proof. unfold Bytes. now rewrite Zabs2N.inj_opp. Qed.

End BigFacts.

(** X6. The argument [ArgBigInt] and [ArgInt64] append for a value is a hex
    string of at least one byte whose big-endian reading is the magnitude of
    the value: the number can be read back, its sign cannot. *)
Theorem integer_argument_value (b : Builder.txDataBuilder) (v : Z) :
  (exists arg buf,
      Builder.args (Builder.ArgBigInt b (Some v)) = Builder.args b ++ [arg] /\
      Builder.args (Builder.ArgInt64 b v) = Builder.args b ++ [arg] /\
      Hex.DecodeString arg = (buf, None) /\
      buf <> [] /\
      Big.SetBytes buf = Z.abs v) /\
  Builder.ArgBigInt b (Some (- v)%Z) = Builder.ArgBigInt b (Some v) /\
  Builder.ArgInt64 b (- v) = Builder.ArgInt64 b v.
Proof.
  split.
  - exists (Hex.EncodeToString
              (if Nat.eqb (List.length (Big.Bytes v)) 0 then [x00] else Big.Bytes v)).
    exists (if Nat.eqb (List.length (Big.Bytes v)) 0 then [x00] else Big.Bytes v).
    split; [reflexivity |]. split; [reflexivity |].
    split; [apply DecodeString_EncodeToString |].
    pose proof (SetBytes_Bytes v) as Hvalue.
    destruct (Big.Bytes v) as [| x rest] eqn:Hbytes; simpl.
    + split; [discriminate |]. rewrite <- Hvalue. reflexivity.
    + split; [discriminate | exact Hvalue].
  - unfold Builder.ArgBigInt, Builder.ArgInt64. now rewrite Bytes_opp.
Qed.

(** ** The data string can be taken apart again *)

Section JoinFacts.
Import Go.

Lemma ContainsRune_append (x y : string) (r : ascii) :
  ContainsRune (x ++ y)%string r = (ContainsRune x r || ContainsRune y r)%bool.
Proof.
  induction x as [| c x IH]; simpl.
  - reflexivity.
  - destruct (Ascii.eqb c r); [reflexivity | exact IH].
Qed.

Lemma fromHexChar_not_separator (c : ascii) (a : N) :
  Hex.fromHexChar c = Some a -> Ascii.eqb c "@" = false.
Proof.
  intros Hc. destruct (Ascii.eqb_spec c "@") as [-> | _]; [| reflexivity].
  vm_compute in Hc. discriminate.
Qed.

(** A string the decoder accepts holds no separator. *)
Lemma hex_has_no_separator (s : string) :
  snd (Hex.DecodeString s) = None -> ContainsRune s "@" = false.
Proof.
  cut ((snd (Hex.DecodeString s) = None -> ContainsRune s "@" = false) /\
       (forall c, snd (Hex.DecodeString (String c s)) = None ->
                  ContainsRune (String c s) "@" = false)).
  { intros [H _]. exact H. }
  induction s as [| d s [IHeven IHodd]].
  - split; [reflexivity |].
    intros c. cbn [Hex.DecodeString]. destruct (Hex.fromHexChar c); discriminate.
  - split; [apply IHodd |].
    intros c. cbn [Hex.DecodeString].
    destruct (Hex.fromHexChar c) as [a |] eqn:Hc; [| discriminate].
    destruct (Hex.fromHexChar d) as [b |] eqn:Hd; [| discriminate].
    destruct (Hex.DecodeString s) as [out e] eqn:Hs. simpl.
    intros He. cbn [ContainsRune].
    rewrite (fromHexChar_not_separator c a Hc), (fromHexChar_not_separator d b Hd).
    apply IHeven. exact He.
Qed.

Lemma separator_splits_once (x : string) :
  forall y r s : string,
    ContainsRune x "@" = false -> ContainsRune y "@" = false ->
    (x ++ String "@" r)%string = (y ++ String "@" s)%string ->
    x = y /\ r = s.
Proof.
  induction x as [| c x IH]; intros y r s Hx Hy Heq.
  - destruct y as [| d y]; simpl in Heq.
    + injection Heq as ->. now split.
    + injection Heq as <- _. simpl in Hy. discriminate.
  - destruct y as [| d y]; simpl in Heq.
    + injection Heq as -> _. simpl in Hx. discriminate.
    + injection Heq as -> Hrest.
      simpl in Hx, Hy. destruct (Ascii.eqb d "@"); [discriminate |].
      destruct (IH y r s Hx Hy Hrest) as [-> ->]. now split.
Qed.

Lemma Join_cons2 (x y : string) (rest : list string) (sep : string) :
  Join (x :: y :: rest) sep = (x ++ sep ++ Join (y :: rest) sep)%string.
Proof. reflexivity. Qed.

(** Joining with the separator loses nothing when no part contains it. *)
Lemma Join_injective (a1 : list string) :
  forall (f1 f2 : string) (a2 : list string),
    Forall (fun p => ContainsRune p "@" = false) (f1 :: a1) ->
    Forall (fun p => ContainsRune p "@" = false) (f2 :: a2) ->
    Join (f1 :: a1) "@" = Join (f2 :: a2) "@" ->
    f1 = f2 /\ a1 = a2.
Proof.
  induction a1 as [| x a1 IH]; intros f1 f2 a2 H1 H2 Heq.
  - destruct a2 as [| y a2].
    + simpl in Heq. now split.
    + rewrite Join_cons2 in Heq. cbn [Join] in Heq.
      apply Forall_inv in H1. rewrite Heq, ContainsRune_append in H1.
      apply orb_false_iff in H1 as [_ H1]. simpl in H1. discriminate.
  - destruct a2 as [| y a2].
    + rewrite Join_cons2 in Heq. cbn [Join] in Heq.
      apply Forall_inv in H2. rewrite <- Heq, ContainsRune_append in H2.
      apply orb_false_iff in H2 as [_ H2]. simpl in H2. discriminate.
    + rewrite !Join_cons2 in Heq.
      inversion H1 as [| ? ? Hf1 Ha1]; subst.
      inversion H2 as [| ? ? Hf2 Ha2]; subst.
      destruct (separator_splits_once f1 f2 _ _ Hf1 Hf2 Heq) as [-> Hrest].
      destruct (IH x y a2 Ha1 Ha2 Hrest) as [-> ->]. now split.
Qed.

End JoinFacts.

(** X7. The data string is unambiguous.  Two builders, each a chain of calls
    on a fresh builder, whose function names hold no [@] and which return the
    same data string without error, have the same function name and the same
    arguments. *)
Theorem data_string_unambiguous
    (lg1 lg2 : Go.Iface Builder.Logger) (cs1 cs2 : list Builder.Call) (s : string) :
  let b1 := Builder.runAll (Builder.NewTxDataBuilder lg1) cs1 in
  let b2 := Builder.runAll (Builder.NewTxDataBuilder lg2) cs2 in
  Go.ContainsRune (Builder.function b1) "@" = false ->
  Go.ContainsRune (Builder.function b2) "@" = false ->
  Builder.ToDataString b1 = (s, None) ->
  Builder.ToDataString b2 = (s, None) ->
  Builder.function b1 = Builder.function b2 /\ Builder.args b1 = Builder.args b2.
Proof.
  intros b1 b2 Hf1 Hf2 Hs1 Hs2.
  assert (Hparts : forall lg cs,
             Forall (fun p => Go.ContainsRune p "@" = false)
               (Builder.args (Builder.runAll (Builder.NewTxDataBuilder lg) cs))).
  { intros lg cs. eapply Forall_impl; [| apply fresh_builder_args_hex].
    intros a Ha. now apply hex_has_no_separator. }
  unfold Builder.ToDataString in Hs1, Hs2.
  destruct (Builder.err b1); [discriminate |].
  destruct (Builder.err b2); [discriminate |].
  injection Hs1 as Hs1. injection Hs2 as Hs2.
  apply Join_injective.
  - constructor; [exact Hf1 | apply Hparts].
  - constructor; [exact Hf2 | apply Hparts].
  - exact (eq_trans Hs1 (eq_sym Hs2)).
Qed.

Lemma data_string_unambiguous_witness :
  let b1 := Builder.runAll (Builder.NewTxDataBuilder (Go.Obj Sample.logger))
              [Builder.CallFunction "f"; Builder.CallArgInt64 1] in
  let b2 := Builder.runAll (Builder.NewTxDataBuilder (Go.Obj Sample.logger))
              [Builder.CallArgBytes [x01]; Builder.CallFunction "f"] in
  Builder.function b1 = Builder.function b2 /\ Builder.args b1 = Builder.args b2.
Proof.
  apply (data_string_unambiguous (Go.Obj Sample.logger) (Go.Obj Sample.logger)
           [Builder.CallFunction "f"; Builder.CallArgInt64 1]
           [Builder.CallArgBytes [x01]; Builder.CallFunction "f"] "f@01");
    reflexivity.
Defined.

(** A function name that holds the separator can pass for arguments. *)
Example separator_in_function_name :
  Builder.ToDataString
    (Builder.runAll (Builder.NewTxDataBuilder (Go.Obj Sample.logger))
       [Builder.CallFunction "f@01"])
  = Builder.ToDataString
      (Builder.runAll (Builder.NewTxDataBuilder (Go.Obj Sample.logger))
         [Builder.CallFunction "f"; Builder.CallArgInt64 1]).
Proof. reflexivity. Qed.

(** X8. Byte arguments survive the trip through the argument list: what
    [ArgBytes] appends decodes back to the slice it was given, and what
    [ArgAddress] appends for an address that passes [checkAddress] decodes
    back to the address bytes. *)
Theorem byte_arguments_round_trip (b : Builder.txDataBuilder) :
  (forall bs : list byte,
      exists arg,
        Builder.args (Builder.ArgBytes b bs) = Builder.args b ++ [arg] /\
        Hex.DecodeString arg = (bs, None)) /\
  (forall a : Builder.AddressHandler,
      Builder.checkAddress (Go.Obj a) = None ->
      exists arg,
        Builder.args (Builder.ArgAddress b (Go.Obj a)) = Builder.args b ++ [arg] /\
        Hex.DecodeString arg = (Builder.AddressBytes a, None) /\
        Builder.err (Builder.ArgAddress b (Go.Obj a)) = Builder.err b).
Proof.
  split.
  - intros bs. exists (Hex.EncodeToString bs). split.
    + unfold Builder.ArgBytes. now destruct (Nat.eqb (List.length bs) 0).
    + apply DecodeString_EncodeToString.
  - intros a Hok. exists (Hex.EncodeToString (Builder.AddressBytes a)).
    unfold Builder.ArgAddress. rewrite Hok.
    unfold Builder.checkAddress in Hok. unfold Builder.addBytes. simpl.
    destruct (Nat.eqb (List.length (Builder.AddressBytes a)) 0); [discriminate |].
    repeat split. apply DecodeString_EncodeToString.
Qed.

Lemma byte_arguments_round_trip_witness :
  exists arg,
    Builder.args
      (Builder.ArgAddress (Builder.NewTxDataBuilder (Go.Obj Sample.logger))
         (Go.Obj Sample.alice))
    = Builder.args (Builder.NewTxDataBuilder (Go.Obj Sample.logger)) ++ [arg] /\
    Hex.DecodeString arg = (Builder.AddressBytes Sample.alice, None) /\
    Builder.err
      (Builder.ArgAddress (Builder.NewTxDataBuilder (Go.Obj Sample.logger))
         (Go.Obj Sample.alice))
    = Builder.err (Builder.NewTxDataBuilder (Go.Obj Sample.logger)).
Proof.
  apply (proj2 (byte_arguments_round_trip
                  (Builder.NewTxDataBuilder (Go.Obj Sample.logger))) Sample.alice).
  reflexivity.
Defined.

(** X9. The three readers agree.  Either all of them return the recorded
    error and no data, or all succeed: then the bytes are those of the data
    string, and the data string is the request's function name and arguments
    joined by the separator. *)
Theorem readers_agree (b : Builder.txDataBuilder) :
  (exists e,
      Builder.ToDataString b = (EmptyString, Some e) /\
      Builder.ToDataBytes b = (None, Some e) /\
      Builder.ToVmValueRequest b = (None, Some e))
  \/
  (exists r bs,
      Builder.ToVmValueRequest b = (Some r, None) /\
      Builder.ToDataBytes b = (Some bs, None) /\
      Builder.ToDataString b = (Go.stringOfBytes bs, None) /\
      Go.stringOfBytes bs
      = Go.Join (Builder.FuncName r :: Builder.Args r) Builder.dataSeparator /\
      Builder.Address r = Builder.address b /\
      Builder.CallerAddr r = Builder.callerAddr b).
Proof.
  destruct (Builder.err b) as [e |] eqn:He.
  - left. exists e. now apply readers_on_error.
  - right. unfold Builder.ToVmValueRequest, Builder.ToDataBytes, Builder.ToDataString.
    rewrite He. eexists. eexists.
    split; [reflexivity |]. split; [reflexivity |].
    unfold Go.stringOfBytes, Go.bytesOfString.
    rewrite string_of_list_byte_of_string. repeat split.
Qed.

(** ** The address generator, continued *)

(** X10. The DNS address of a username depends on the last byte of its digest
    only: two usernames whose non-empty digests end in the same byte get the
    same address, or the same error. *)
Theorem dns_address_depends_on_last_byte
    (ag : Blockchain.addressGenerator) (u1 u2 : string) :
  0 < List.length (Blockchain.Compute (Blockchain.hasher ag) u1) ->
  0 < List.length (Blockchain.Compute (Blockchain.hasher ag) u2) ->
  last (Blockchain.Compute (Blockchain.hasher ag) u1) x00
  = last (Blockchain.Compute (Blockchain.hasher ag) u2) x00 ->
  Blockchain.CompatibleDNSAddressFromUsername ag u1
  = Blockchain.CompatibleDNSAddressFromUsername ag u2.
Proof.
  intros H1 H2 Hlast. unfold Blockchain.CompatibleDNSAddressFromUsername.
  rewrite (index_last _ x00), (index_last _ x00), Hlast; [reflexivity | |].
  - intros Hempty. rewrite Hempty in H2. simpl in H2. lia.
  - intros Hempty. rewrite Hempty in H1. simpl in H1. lia.
Qed.

Lemma dns_address_depends_on_last_byte_witness :
  Blockchain.CompatibleDNSAddressFromUsername Sample.generator "abc"
  = Blockchain.CompatibleDNSAddressFromUsername Sample.generator "xyz".
Proof.
  apply (dns_address_depends_on_last_byte Sample.generator "abc" "xyz").
  - simpl. lia.
  - simpl. lia.
  - reflexivity.
Defined.

(** X11. The DNS address of a shard is the smart-contract address
    [ComputeArwenScAddress] computes, at nonce 0, for the owner whose 32 bytes
    are thirty times 1, then 0, then the shard id; the two calls return the
    same address or the same error. *)
Theorem dns_address_is_contract_address
    (ag : Blockchain.addressGenerator) (shardId : byte) (bech32 : string) :
  Blockchain.CompatibleDNSAddress ag shardId =
  Blockchain.ComputeArwenScAddress ag
    (Go.Obj {| Builder.AddressBytes := repeat x01 30 ++ [x00; shardId];
               Builder.AddressAsBech32String := bech32 |})
    Blockchain.accountStartNonce.
Proof.
  rewrite CompatibleDNSAddress_key. reflexivity.
Qed.

(** ** The constructor's errors *)

(** X12. [NewHeaderCheckHandler] mints one error of its own, [ErrNilProxy] for
    a nil proxy.  Every other error it returns is, unwrapped, the error of the
    call at which that very run stopped: the first of its three reads to fail,
    asked at the log the run had reached, or the first factory call to fail,
    on the arguments the run passed to it. *)
Theorem constructor_errors_pass_through
    {L : HeaderCheck.Library} {F : HeaderCheck.Factory}
    (proxy : Go.Iface HeaderCheck.Proxy) (l : HeaderCheck.Log) (e : Go.error) :
  fst (HeaderCheck.NewHeaderCheckHandler proxy l) = Go.Err e ->
  (Go.IfNil proxy = true /\ e = Go.ErrNilProxy)
  \/
  (exists p,
      proxy = Go.Obj p /\
      ((exists r2 r3, HeaderCheck.fetched p l = (Go.Err e, r2, r3)) \/
       (exists nc r3, HeaderCheck.fetched p l = (Go.Ok nc, Go.Err e, r3)) \/
       (exists nc rc, HeaderCheck.fetched p l = (Go.Ok nc, Go.Ok rc, Go.Err e)) \/
       (exists nc rc eec,
           HeaderCheck.fetched p l = (Go.Ok nc, Go.Ok rc, Go.Ok eec) /\
           (HeaderCheck.CreateCoreComponents rc nc = Go.Err e \/
            exists coreComp,
              HeaderCheck.CreateCoreComponents rc nc = Go.Ok coreComp /\
              (HeaderCheck.CreateCryptoComponents = Go.Err e \/
               exists cryptoComp,
                 HeaderCheck.CreateCryptoComponents = Go.Ok cryptoComp /\
                 (HeaderCheck.CreateNodesCoordinator (HeaderCheck.Hasher coreComp)
                    (HeaderCheck.Rater coreComp) nc eec = Go.Err e \/
                  exists nodesCoordinator,
                    HeaderCheck.CreateNodesCoordinator (HeaderCheck.Hasher coreComp)
                      (HeaderCheck.Rater coreComp) nc eec = Go.Ok nodesCoordinator /\
                    (HeaderCheck.NewHeaderSigVerifier
                       (HeaderCheck.headerSigArgs coreComp cryptoComp nodesCoordinator)
                     = Go.Err e \/
                     exists headerSigVerifier,
                       HeaderCheck.NewHeaderSigVerifier
                         (HeaderCheck.headerSigArgs coreComp cryptoComp nodesCoordinator)
                       = Go.Ok headerSigVerifier /\
                       (HeaderCheck.NewRawHeaderHandler p (HeaderCheck.Marshaller coreComp)
                        = Go.Err e \/
                        exists rawHeaderHandler,
                          HeaderCheck.NewRawHeaderHandler p
                            (HeaderCheck.Marshaller coreComp) = Go.Ok rawHeaderHandler /\
                          HeaderCheck.NewHeaderVerifier
                            {| HeaderCheck.HeaderHandler := rawHeaderHandler;
                               HeaderCheck.HeaderSigVerifier := headerSigVerifier;
                               HeaderCheck.NodesCoordinator := nodesCoordinator |}
                          = Go.Err e)))))))).
Proof.
  destruct proxy as [| | p].
  - intros [= <-]. left. now split.
  - intros [= <-]. left. now split.
  - rewrite NewHeaderCheckHandler_obj. intros He. right. exists p.
    split; [reflexivity |].
    destruct (HeaderCheck.firstFetchError p l) as [e' |] eqn:Hfirst.
    + rewrite (construct_fetch_error p l e' Hfirst) in He. injection He as ->.
      unfold HeaderCheck.firstFetchError in Hfirst.
      destruct (HeaderCheck.fetched p l) as [[[nc | e1] [rc | e2]] [eec | e3]];
        try discriminate; injection Hfirst as ->; eauto 6.
    + unfold HeaderCheck.firstFetchError in Hfirst.
      destruct (HeaderCheck.fetched p l) as [[[nc | e1] [rc | e2]] [eec | e3]] eqn:Hf;
        try discriminate.
      rewrite (construct_after_fetch p l nc rc eec Hf) in He.
      do 3 right. exists nc, rc, eec. split; [reflexivity |].
      destruct (HeaderCheck.CreateCoreComponents rc nc) as [coreComp | e1];
        [| injection He as ->; now left].
      right. exists coreComp. split; [reflexivity |].
      destruct HeaderCheck.CreateCryptoComponents as [cryptoComp | e2];
        [| injection He as ->; now left].
      right. exists cryptoComp. split; [reflexivity |].
      destruct (HeaderCheck.CreateNodesCoordinator _ _ _ _) as [nodes | e3];
        [| injection He as ->; now left].
      right. exists nodes. split; [reflexivity |].
      destruct (HeaderCheck.NewHeaderSigVerifier _) as [sigVerifier | e4];
        [| injection He as ->; now left].
      right. exists sigVerifier. split; [reflexivity |].
      destruct (HeaderCheck.NewRawHeaderHandler _ _) as [raw | e5];
        [| injection He as ->; now left].
      right. exists raw. split; [reflexivity | exact He].
Qed.

(** On the flaky remote the run stops at the ratings read, and the error
    returned is the one that read gave at the log of the run. *)
Lemma constructor_errors_pass_through_witness :
  exists nc r3,
    @HeaderCheck.fetched Sample.library Sample.flakyProxy []
    = (Go.Ok nc, Go.Err (Go.ErrExternal "timeout"), r3).
Proof.
  destruct (@constructor_errors_pass_through Sample.library Sample.factory
              (Go.Obj Sample.flakyProxy) [] (Go.ErrExternal "timeout") eq_refl)
    as [[Hnil _] | (p & Hp & Hcases)].
  - discriminate Hnil.
  - injection Hp as <-.
    destruct Hcases as [(r2 & r3 & H) | [H | [(nc & rc & H) | (nc & rc & eec & H & _)]]].
    + vm_compute in H. discriminate H.
    + exact H.
    + vm_compute in H. discriminate H.
    + vm_compute in H. discriminate H.
Defined.

(** ** Integer arguments are canonical *)

Section BigCanonical.
Import Big.
Local Open Scope N_scope.

Lemma natBytes_zero (fuel : nat) (acc : list byte) : natBytes fuel 0 acc = acc.
Proof. destruct fuel; reflexivity. Qed.

(** The most significant byte [natBytes] writes is not zero. *)
Lemma natBytes_head (fuel : nat) :
  forall (n : N) (acc : list byte),
    n <> 0 -> n < 2 ^ N.of_nat fuel ->
    exists first rest,
      natBytes fuel n acc = first :: rest /\ Byte.to_N first <> 0.
Proof.
  induction fuel as [| fuel IH]; intros n acc Hpos Hn.
  - simpl in Hn. lia.
  - cbn [natBytes]. destruct (N.eqb_spec n 0) as [Hzero | _]; [contradiction |].
    rewrite N.shiftr_div_pow2. change (2 ^ 8) with 256.
    change 255 with (N.ones 8). rewrite N.land_ones. change (2 ^ 8) with 256.
    destruct (N.eq_dec (n / 256) 0) as [Hhigh | Hhigh].
    + rewrite Hhigh, natBytes_zero.
      exists (byteOfN (n mod 256)), acc. split; [reflexivity |].
      rewrite to_N_byteOfN by (apply N.mod_lt; lia).
      pose proof (N.div_mod n 256 ltac:(lia)). lia.
    + apply IH; [exact Hhigh |].
      rewrite Nat2N.inj_succ, N.pow_succ_r' in Hn.
      apply N.Div0.div_lt_upper_bound.
      pose proof (N.pow_nonzero 2 (N.of_nat fuel) ltac:(lia)). lia.
Qed.

Lemma Bytes_head (x : Z) :
  x <> 0%Z ->
  exists first rest, Bytes x = first :: rest /\ first <> x00.
Proof.
  intros Hx. unfold Bytes.
  destruct (natBytes_head (N.size_nat (Z.abs_N x)) (Z.abs_N x) [])
    as (first & rest & Heq & Hfirst).
  - lia.
  - apply size_nat_bound.
  - exists first, rest. split; [exact Heq |].
    intros ->. apply Hfirst. reflexivity.
Qed.

(** The slice [addBytes] encodes for an integer reads back as its
    magnitude, zero included. *)
Lemma SetBytes_normalised (x : Z) :
  SetBytes (if Nat.eqb (List.length (Bytes x)) 0 then [x00] else Bytes x) = Z.abs x.
Proof.
  pose proof (SetBytes_Bytes x) as Hvalue.
  destruct (Bytes x) as [| b rest]; simpl; [| exact Hvalue].
  rewrite <- Hvalue. reflexivity.
Qed.

End BigCanonical.

(** X13. A non-zero integer is written in its shortest form: the bytes
    [ArgBigInt] encodes start with a non-zero byte, so the argument carries no
    leading [00]. *)
Theorem integer_argument_minimal (b : Builder.txDataBuilder) (v : Z) :
  v <> 0%Z ->
  exists first rest,
    first <> x00 /\
    Builder.args (Builder.ArgBigInt b (Some v))
    = Builder.args b ++ [Hex.EncodeToString (first :: rest)] /\
    Builder.args (Builder.ArgInt64 b v)
    = Builder.args b ++ [Hex.EncodeToString (first :: rest)].
Proof.
  intros Hv. destruct (Bytes_head v Hv) as (first & rest & Hbytes & Hfirst).
  exists first, rest. split; [exact Hfirst |].
  unfold Builder.ArgInt64, Builder.ArgBigInt, Builder.addBytes.
  rewrite Hbytes. split; reflexivity.
Qed.

Lemma integer_argument_minimal_witness :
  exists first rest,
    first <> x00 /\
    Builder.args
      (Builder.ArgBigInt (Builder.NewTxDataBuilder (Go.Obj Sample.logger)) (Some 258%Z))
    = Builder.args (Builder.NewTxDataBuilder (Go.Obj Sample.logger))
      ++ [Hex.EncodeToString (first :: rest)] /\
    Builder.args
      (Builder.ArgInt64 (Builder.NewTxDataBuilder (Go.Obj Sample.logger)) 258)
    = Builder.args (Builder.NewTxDataBuilder (Go.Obj Sample.logger))
      ++ [Hex.EncodeToString (first :: rest)].
Proof.
  apply (integer_argument_minimal
           (Builder.NewTxDataBuilder (Go.Obj Sample.logger)) 258).
  lia.
Defined.

(** X14. Two integers get the same argument exactly when they have the same
    magnitude: different magnitudes never collide, opposite signs always
    do. *)
Theorem integer_argument_same_iff (b : Builder.txDataBuilder) (v1 v2 : Z) :
  Builder.args (Builder.ArgBigInt b (Some v1))
  = Builder.args (Builder.ArgBigInt b (Some v2))
  <-> Z.abs v1 = Z.abs v2.
Proof.
  unfold Builder.ArgBigInt, Builder.addBytes. cbn [Builder.args Builder.appendArg].
  split.
  - intros Heq. apply app_inv_head in Heq. injection Heq as Heq.
    apply (f_equal Hex.DecodeString) in Heq.
    rewrite !DecodeString_EncodeToString in Heq. injection Heq as Heq.
    rewrite <- (SetBytes_normalised v1), <- (SetBytes_normalised v2).
    now rewrite Heq.
  - intros Habs. unfold Big.Bytes.
    assert (Z.abs_N v1 = Z.abs_N v2) as ->; [| reflexivity].
    apply N2Z.inj. now rewrite !N2Z.inj_abs_N.
Qed.
